(** * Pneumothorax grading viewer: the annotation cursor and the row gateway

    A shallow embedding of the two Streamlit scripts of the repository,
    [apl.py] (local CSV file, skip-forward cursor) and [app1.py] (CSV file in
    a GitHub repository, materialised list of unlabeled rows), and the
    properties of their cursor and of their save/drop handlers.

    A Streamlit script is executed from its first line to its last on every
    user interaction.  What survives from one execution to the next is
    [st.session_state] and the table store; the module-level data frame
    [GT_Pneumothorax] is rebuilt from the store by every execution.  Each
    script is therefore a function from (store, session state, widget values)
    to an outcome that records the session state, the store and the data
    frame as the execution leaves them. *)

From Stdlib Require Import Ascii String QArith Qcanon.
From stdpp Require Import base numbers strings list sorting gmap fin_maps.

Open Scope string_scope.
Open Scope nat_scope.

(** ** Cells, rows and data frames (the part of pandas the scripts use) *)

Module Pandas.

(** A cell of a frame read by [pd.read_csv] or assigned by the scripts:
    the missing value NaN, a finite number, a boolean or a string. *)
Inductive value : Type :=
  | VNaN
  | VNum (q : Qc)
  | VBool (b : bool)
  | VStr (s : string).

(** A row is indexed by column name; a frame is its column index and its
    rows, the row labels being the positions [0 .. len-1] ([RangeIndex]). *)
Abbreviation Row := (gmap string value).

Record DataFrame : Type := mkDF {
  columns : list string;
  rows : list Row
}.

Definition len (df : DataFrame) : nat := length (rows df).

(** [df.iloc[i]] for [0 <= i]; [None] is Python's [IndexError]. *)
Definition iloc (df : DataFrame) (i : nat) : option Row := rows df !! i.

(** [bool(v)] *)
Definition truthy (v : value) : bool :=
  match v with
  | VNaN => true
  | VNum q => negb (bool_decide (q = 0%Qc))
  | VBool b => b
  | VStr s => negb (bool_decide (s = EmptyString))
  end.

(** The value of a boolean as a number ([True == 1], [False == 0]). *)
Definition num_of_bool (b : bool) : Qc := if b then 1%Qc else 0%Qc.

(** [v == k] for an integer literal [k]. *)
Definition eq_int (v : value) (k : Z) : bool :=
  match v with
  | VNum q => bool_decide (q = Qc_of_Z k)
  | VBool b => bool_decide (num_of_bool b = Qc_of_Z k)
  | VNaN | VStr _ => false
  end.

(** [v == w] on two cells; NaN differs from everything, itself included. *)
Definition py_eq (v w : value) : bool :=
  match v, w with
  | VNum p, VNum q => bool_decide (p = q)
  | VNum p, VBool b | VBool b, VNum p => bool_decide (p = num_of_bool b)
  | VBool a, VBool b => bool_decide (a = b)
  | VStr s, VStr t => bool_decide (s = t)
  | _, _ => false
  end.

(** [pd.isna(v)] *)
Definition isna (v : value) : bool :=
  match v with VNaN => true | _ => false end.

(** [df.at[i, c] = v] for a row label [i] of the frame.  The cell is
    overwritten; when [c] is not yet a column, pandas adds it and the other
    rows read NaN there.  Both scripts reach this assignment only after
    [df.iloc[i]] has succeeded, so the enlargement pandas performs for an
    unknown row label is not part of the model. *)
Definition at_set (df : DataFrame) (i : nat) (c : string) (v : value) : DataFrame :=
  {| columns := if bool_decide (c ∈ columns df) then columns df else (columns df ++ [c])%list;
     rows := imap (λ j r,
               if bool_decide (j = i) then <[c := v]> r
               else match r !! c with
                    | Some _ => r
                    | None => <[c := VNaN]> r
                    end) (rows df) |}.

(** [os.path.join(folder, name)] for a folder name that is not empty and
    does not end in a slash: an absolute [name] replaces the folder. *)
Definition path_join (folder name : string) : string :=
  match name with
  | String "/"%char _ => name
  | _ => folder +:+ "/" +:+ name
  end.

End Pandas.

Import Pandas.

(** ** The labeling form *)

Inductive ptype := Simple | Tension.
Inductive psize := Small | Large.
Inductive pside := Right | Left.

(** The string an [st.selectbox] returns for each option. *)
Definition type_cell (t : ptype) : value :=
  VStr (match t with Simple => "Simple" | Tension => "Tension" end).
Definition size_cell (s : psize) : value :=
  VStr (match s with Small => "Small" | Large => "Large" end).
Definition side_cell (s : pside) : value :=
  VStr (match s with Right => "Right" | Left => "Left" end).

(** What a script execution tells the user. *)
Inductive notice :=
  | LoadFailed          (* st.error: the table could not be loaded *)
  | MissingColumns      (* st.error: a required column is absent *)
  | AllLabeled          (* st.success: all images have been labeled *)
  | NoImages            (* st.warning: no images available for labeling *)
  | ImageNotFound       (* st.error: the image file does not exist *)
  | IndexErrorShown     (* st.error: index error while fetching the row *)
  | Saved               (* st.success: changes saved *)
  | SaveFailed          (* st.error: the write to the store failed *)
  | Mismatch.           (* st.error: data mismatch detected *)

(** How a script execution ends. *)
Inductive ending :=
  | Completed           (* the last line was reached *)
  | Stopped             (* st.stop() *)
  | Rerun               (* st.rerun() *)
  | KeyError            (* uncaught: a column is missing *)
  | IndexError          (* uncaught: a row position is out of range *)
  | TypeError.          (* uncaught: a path was built from a non-string *)

(** ** Variant A: apl.py *)

Module Apl.

Definition images_folder : string := "Chunk1".

(** The local disk: the CSV file as [pd.read_csv] parses it ([None] when it
    raises), which image files exist and can be opened, and whether [to_csv]
    may write. *)
Record world := mkWorld {
  csv_file : option DataFrame;
  image_exists : string → bool;
  disk_writable : bool
}.

(** The widgets' return values in one execution. *)
Record widgets := mkWidgets {
  drop_checkbox : bool;
  pneumothorax_type : ptype;
  pneumothorax_Size : psize;
  Affected_Side : pside;
  save_changes : bool;
  previous : bool;
  next : bool
}.

Definition idle : widgets :=
  mkWidgets false Simple Small Right false false false.

Record outcome := mkOutcome {
  current_index : option nat;        (* st.session_state afterwards *)
  GT_Pneumothorax : option DataFrame;(* the frame in memory at the end *)
  disk : option DataFrame;           (* the CSV file afterwards *)
  notices : list notice;
  ended : ending
}.

(** Lines 25-30, the loop that skips labeled images.  [rest] holds the rows
    from position [i] on: the loop test [i < len(GT_Pneumothorax)] is
    [rest] being non-empty and [GT_Pneumothorax.iloc[i]] is its head.  The
    result is the value of [current_index] when the loop is left, normally
    ([inl]) or by the [KeyError] of [row["Label_Flag"]] ([inr]). *)
Fixpoint skip_labeled (rest : list Row) (i : nat) : nat + nat :=
  match rest with
  | [] => inl i
  | row :: rest' =>
      match row !! "Label_Flag" with
      | None => inr i
      | Some flag =>
          if eq_int flag 1 then skip_labeled rest' (S i) else inl i
      end
  end.

Definition scan (df : DataFrame) (i : nat) : nat + nat :=
  skip_labeled (drop i (rows df)) i.

(** Lines 63-65: the in-memory part of the drop handler. *)
Definition drop_row (df : DataFrame) (i : nat) (w : widgets) : DataFrame :=
  at_set (at_set df i "Label_Flag" (VNum 1)) i "Drop" (VBool (drop_checkbox w)).

(** Lines 74-78: the in-memory part of the save handler. *)
Definition save_row (df : DataFrame) (i : nat) (w : widgets) : DataFrame :=
  at_set (at_set (at_set (at_set (at_set df
    i "Pneumothorax_Type" (type_cell (pneumothorax_type w)))
    i "Pneumothorax_Size" (size_cell (pneumothorax_Size w)))
    i "Affected_Side" (side_cell (Affected_Side w)))
    i "Label_Flag" (VNum 1))
    i "Drop" (VStr "False").

(** [GT_Pneumothorax.to_csv(csv_file_path, index=False)] inside its [try]:
    the file afterwards and the message shown. *)
Definition to_csv (w : world) (df : DataFrame) : option DataFrame * notice :=
  if disk_writable w then (Some df, Saved) else (csv_file w, SaveFailed).

(** Lines 87-92. *)
Definition navigate (n : nat) (w : widgets) (i : nat) : nat :=
  let i1 := if previous w && bool_decide (0 < i) then i - 1 else i in
  if next w && bool_decide (i1 < n - 1) then i1 + 1 else i1.

(** One execution of the script. *)
Definition script (w : world) (session : option nat) (ui : widgets) : outcome :=
  match csv_file w with
  | None => mkOutcome session None (csv_file w) [LoadFailed] Stopped
  | Some df =>
      match scan df (default 0 session) with
      | inr i => mkOutcome (Some i) (Some df) (csv_file w) [] KeyError
      | inl i =>
          if bool_decide (len df ≤ i) then
            mkOutcome (Some i) (Some df) (csv_file w) [AllLabeled] Stopped
          else
            match iloc df i with
            | None => mkOutcome (Some i) (Some df) (csv_file w) [] IndexError
            | Some row =>
                match row !! "Image_Name" with
                | None => mkOutcome (Some i) (Some df) (csv_file w) [] KeyError
                | Some (VStr name) =>
                    if image_exists w (path_join images_folder name) then
                      match row !! "Index" with
                      | None => mkOutcome (Some i) (Some df) (csv_file w) [] KeyError
                      | Some _ =>
                          if drop_checkbox ui then
                            let df' := drop_row df i ui in
                            let '(file, msg) := to_csv w df' in
                            mkOutcome (Some (navigate (len df') ui i)) (Some df')
                                      file [msg] Completed
                          else if save_changes ui then
                            let df' := save_row df i ui in
                            let '(file, msg) := to_csv w df' in
                            mkOutcome (Some (navigate (len df') ui i)) (Some df')
                                      file [msg] Completed
                          else
                            mkOutcome (Some (navigate (len df) ui i)) (Some df)
                                      (csv_file w) [] Completed
                      end
                    else
                      mkOutcome (Some i) (Some df) (csv_file w) [ImageNotFound] Stopped
                | Some _ => mkOutcome (Some i) (Some df) (csv_file w) [] TypeError
                end
            end
      end
  end.

(** A session is a sequence of executions, each one on the file the
    previous one left.  A step gives the widgets' values and whether the
    disk can be written during that execution; the image folder does not
    change. *)
Definition after (w : world) (writable : bool) (file : option DataFrame) : world :=
  mkWorld file (image_exists w) writable.

Fixpoint session_run (w : world) (session : option nat)
    (steps : list (widgets * bool)) : option DataFrame * option nat :=
  match steps with
  | [] => (csv_file w, session)
  | (ui, writable) :: steps' =>
      let out := script (after w writable (csv_file w)) session ui in
      session_run (after w writable (disk out)) (current_index out) steps'
  end.

End Apl.

(** ** Variant B: app1.py *)

Module App1.

Definition images_folder : string := "chunk2".
Definition required_columns : list string := ["Index"; "Image_Name"; "Label_Flag"].

(** The remote store and the image folder.  [remote] is [chunk_2.csv] of the
    GitHub repository as [pd.read_csv] parses it; the session is its only
    writer, and a frame committed with [to_csv] is read back as it was.
    [image_exists] tells which image files exist and can be opened. *)
Record world := mkWorld {
  remote : DataFrame;
  image_exists : string → bool
}.

(** Which of the network calls of one execution raise: the [load_data()] of
    line 35, the commit of lines 129-132, and the second [load_data()] of the
    execution (line 135 or line 153). *)
Record faults := mkFaults {
  fetch_fails : bool;
  commit_fails : bool;
  refetch_fails : bool
}.

Definition no_faults : faults := mkFaults false false false.

(** [st.session_state] once line 38 has filled it. *)
Record session := mkSession {
  unlabeled_indices : list nat;
  current_pos : Z
}.

Record widgets := mkWidgets {
  reset : bool;
  pneumothorax_type : ptype;
  pneumothorax_size : psize;
  affected_side : pside;
  form_submit : bool;
  drop_submit : bool;
  previous : bool;
  next : bool
}.

Definition idle : widgets :=
  mkWidgets false Simple Small Right false false false false.

Record outcome := mkOutcome {
  state : option session;            (* st.session_state afterwards *)
  GT_Pneumothorax : option DataFrame;(* the frame in memory at the end *)
  store : DataFrame;                 (* the remote file afterwards *)
  notices : list notice;
  ended : ending
}.

(** Lines 17-33.  [inr] is the message shown before [st.stop()]. *)
Definition load_data (fails : bool) (content : DataFrame) : DataFrame + notice :=
  if fails then inr LoadFailed
  else if forallb (λ col, bool_decide (col ∈ columns content)) required_columns
       then inl content
       else inr MissingColumns.

(** [GT_Pneumothorax.index[mask].tolist()]: the labels, counted from [i],
    of the positions where the boolean series [mask] holds. *)
Fixpoint index_where (mask : list bool) (i : nat) : list nat :=
  match mask with
  | [] => []
  | b :: mask' =>
      if b then i :: index_where mask' (S i) else index_where mask' (S i)
  end.

(** [GT_Pneumothorax["Label_Flag"] == 0] *)
Definition flag_is_zero (r : Row) : bool :=
  match r !! "Label_Flag" with
  | Some v => eq_int v 0
  | None => false
  end.

(** [lst[z]] on a Python list: negative positions count from the end. *)
Definition py_getitem {A} (l : list A) (z : Z) : option A :=
  if bool_decide (0 ≤ z)%Z then l !! Z.to_nat z
  else if bool_decide (- Z.of_nat (length l) ≤ z)%Z
       then l !! Z.to_nat (Z.of_nat (length l) + z)
       else None.

(** Lines 118-124. *)
Definition verify_before_save (df : DataFrame) (original_idx : nat)
    (original_name : value) : bool :=
  match iloc df original_idx with
  | None => false
  | Some current_row =>
      match current_row !! "Image_Name" with
      | None => false
      | Some v => py_eq v original_name
      end
  end.

(** Lines 157-161. *)
Definition apply_form (df : DataFrame) (csv_idx : nat) (ui : widgets) : DataFrame :=
  at_set (at_set (at_set (at_set (at_set df
    csv_idx "Pneumothorax_Type" (type_cell (pneumothorax_type ui)))
    csv_idx "Pneumothorax_Size" (size_cell (pneumothorax_size ui)))
    csv_idx "Affected_Side" (side_cell (affected_side ui)))
    csv_idx "Label_Flag" (VNum 1))
    csv_idx "Drop" (VStr (if drop_submit ui then "True" else "False")).

(** [self.update(other)]: every cell of [self] for which [other] has a
    value that is not NaN at the same label and column takes that value. *)
Definition update_row (r o : Row) : Row :=
  map_imap (λ c v, Some (match o !! c with
                         | Some ov => if isna ov then v else ov
                         | None => v
                         end)) r.

Definition df_update (self other : DataFrame) : DataFrame :=
  {| columns := columns self;
     rows := imap (λ i r, match rows other !! i with
                          | Some o => update_row r o
                          | None => r
                          end) (rows self) |}.

(** What [get_current_image()] hands to the rest of the script. *)
Inductive current :=
  | NoImage (shown : list notice)                     (* return None *)
  | Image (csv_idx : nat) (row : Row) (name : string) (* the tuple; [name] is row["Image_Name"] *)
  | Uncaught.  (* os.path.join raised a TypeError, which is not caught *)

(** Lines 49-66. *)
Definition get_current_image (w : world) (df : DataFrame) (ss : session) : current :=
  if bool_decide (current_pos ss = (-1)%Z) then NoImage []
  else
    match py_getitem (unlabeled_indices ss) (current_pos ss) with
    | None => NoImage [IndexErrorShown]
    | Some csv_idx =>
        match iloc df csv_idx with
        | None => NoImage [IndexErrorShown]
        | Some row =>
            match row !! "Image_Name" with
            | None => NoImage [IndexErrorShown]
            | Some (VStr name) =>
                if image_exists w (path_join images_folder name)
                then Image csv_idx row name
                else NoImage [ImageNotFound]
            | Some _ => Uncaught
            end
        end
    end.

(** Lines 170-177 on [current_pos]: the new position, and whether
    [st.rerun()] was called. *)
Definition navigate (ss : session) (ui : widgets) : Z * bool :=
  if previous ui && bool_decide (0 < current_pos ss)%Z then
    ((current_pos ss - 1)%Z, true)
  else if next ui &&
          bool_decide (current_pos ss < Z.of_nat (length (unlabeled_indices ss)) - 1)%Z then
    ((current_pos ss + 1)%Z, true)
  else (current_pos ss, false).

(** [row.get(c, d)]: the cell, or [d] when the row has no column [c]. *)
Definition row_get (r : Row) (c : string) (d : value) : value :=
  default d (r !! c).

(** Lines 100-109: the option each select box of the form shows for the row
    on display, index 0 when the cell equals the first option and index 1
    otherwise. *)
Definition preselected_type (row : Row) : ptype :=
  if py_eq (row_get row "Pneumothorax_Type" (VStr "Simple")) (VStr "Simple")
  then Simple else Tension.

Definition preselected_size (row : Row) : psize :=
  if py_eq (row_get row "Pneumothorax_Size" (VStr "Small")) (VStr "Small")
  then Small else Large.

Definition preselected_side (row : Row) : pside :=
  if py_eq (row_get row "Affected_Side" (VStr "Right")) (VStr "Right")
  then Right else Left.

Section Script.

(** [pd.to_numeric] applied to a string: the number it denotes, if it
    denotes one.  The parser belongs to pandas. *)
Variable str_to_num : string → option Qc.

(** [pd.to_numeric(v, errors="coerce")] on one cell; booleans count as the
    numbers 1 and 0. *)
Definition to_numeric (v : value) : value :=
  match v with
  | VNaN => VNaN
  | VNum q => VNum q
  | VBool b => VNum (num_of_bool b)
  | VStr s => match str_to_num s with
              | Some q => VNum q
              | None => VNaN
              end
  end.

(** [.fillna(0)] on one cell. *)
Definition fillna0 (v : value) : value := if isna v then VNum 0 else v.

(** Lines 39 and 139: the column [Label_Flag] is replaced by its numeric
    coercion.  [load_data] has checked that the column exists. *)
Definition coerce_label_flag (df : DataFrame) : DataFrame :=
  {| columns := columns df;
     rows := (λ r, <["Label_Flag" :=
                     fillna0 (to_numeric (default VNaN (r !! "Label_Flag")))]> r)
             <$> rows df |}.

(** Lines 39-41 and 139-141: the frame with the coerced column, and the
    list and position stored in the session state. *)
Definition recompute (df : DataFrame) : DataFrame * session :=
  let df' := coerce_label_flag df in
  let unlabeled := index_where (flag_is_zero <$> rows df') 0 in
  (df', mkSession unlabeled (match unlabeled with [] => (-1)%Z | _ => 0%Z end)).

(** Lines 126-146. *)
Inductive update_result :=
  | Updated (df : DataFrame) (ss : session) (remote' : DataFrame) (* return True *)
  | NotUpdated                                                    (* return False *)
  | Halted (shown : notice) (remote' : DataFrame). (* st.stop() inside load_data *)

Definition update_system (f : faults) (GT : DataFrame) : update_result :=
  if commit_fails f then NotUpdated
  else
    match load_data (refetch_fails f) GT with
    | inr shown => Halted shown GT
    | inl new_data =>
        let '(df, ss) := recompute (df_update GT new_data) in
        Updated df ss GT
    end.

(** Lines 148-165, for the row and name that are on display. *)
Definition submit (w : world) (f : faults) (df : DataFrame) (ss : session)
    (csv_idx : nat) (original_name : value) (ui : widgets) : outcome :=
  if negb (verify_before_save df csv_idx original_name) then
    match load_data (refetch_fails f) (remote w) with
    | inr shown => mkOutcome (Some ss) (Some df) (remote w) [Mismatch; shown] Stopped
    | inl df' => mkOutcome (Some ss) (Some df') (remote w) [Mismatch] Rerun
    end
  else
    let df1 := apply_form df csv_idx ui in
    match update_system f df1 with
    | Updated df2 ss' remote' => mkOutcome (Some ss') (Some df2) remote' [Saved] Rerun
    | NotUpdated => mkOutcome (Some ss) (Some df1) (remote w) [SaveFailed] Rerun
    | Halted shown remote' => mkOutcome (Some ss) (Some df1) remote' [shown] Stopped
    end.

(** One execution of the script. *)
Definition script (w : world) (f : faults) (st : option session) (ui : widgets) : outcome :=
  match load_data (fetch_fails f) (remote w) with
  | inr shown => mkOutcome st None (remote w) [shown] Stopped
  | inl df0 =>
      let '(df, ss) := match st with
                       | Some ss => (df0, ss)
                       | None => recompute df0
                       end in
      if reset ui then mkOutcome None (Some df) (remote w) [] Rerun
      else
        match get_current_image w df ss with
        | Uncaught => mkOutcome (Some ss) (Some df) (remote w) [] TypeError
        | NoImage shown =>
            mkOutcome (Some ss) (Some df) (remote w) (shown ++ [NoImages]) Stopped
        | Image csv_idx row name =>
            if form_submit ui || drop_submit ui then
              submit w f df ss csv_idx (VStr name) ui
            else
              let '(pos, rerun) := navigate ss ui in
              mkOutcome (Some (mkSession (unlabeled_indices ss) pos)) (Some df)
                        (remote w) [] (if rerun then Rerun else Completed)
        end
  end.

(** A session is a sequence of executions, each one on the store the
    previous one left; a step gives the network faults and the widgets'
    values of one execution. *)
Fixpoint session_run (w : world) (st : option session)
    (steps : list (faults * widgets)) : DataFrame * option session :=
  match steps with
  | [] => (remote w, st)
  | (f, ui) :: steps' =>
      let out := script w f st ui in
      session_run (mkWorld (store out) (image_exists w)) (state out) steps'
  end.

End Script.

End App1.

(** ** Vocabulary of the properties *)

(** The cell of row [i] in column [c], if the frame has one. *)
Definition cell (df : DataFrame) (i : nat) (c : string) : option value :=
  rows df !! i ≫= λ r : Row, r !! c.

(** The columns a save is allowed to write. *)
Definition annotation_columns : list string :=
  ["Pneumothorax_Type"; "Pneumothorax_Size"; "Affected_Side"; "Label_Flag"; "Drop"].

(** The three label columns hold the form's selection. *)
Definition labels_are (t : ptype) (s : psize) (d : pside) (r : Row) : Prop :=
  r !! "Pneumothorax_Type" = Some (type_cell t) ∧
  r !! "Pneumothorax_Size" = Some (size_cell s) ∧
  r !! "Affected_Side" = Some (side_cell d).

(** The three label columns of [r'] are those of [r]. *)
Definition labels_kept (r r' : Row) : Prop :=
  r' !! "Pneumothorax_Type" = r !! "Pneumothorax_Type" ∧
  r' !! "Pneumothorax_Size" = r !! "Pneumothorax_Size" ∧
  r' !! "Affected_Side" = r !! "Affected_Side".

(** [r'] agrees with [r] outside the columns [cs]. *)
Definition same_outside (cs : list string) (r r' : Row) : Prop :=
  ∀ c, c ∉ cs → r' !! c = r !! c.

(** Rows labeled for variant A: [row["Label_Flag"] == 1]. *)
Definition labeled_A (r : Row) : Prop :=
  ∃ v, r !! "Label_Flag" = Some v ∧ eq_int v 1 = true.

(** Rows variant A stops on: [row["Label_Flag"] == 1] is false. *)
Definition not_labeled_A (r : Row) : Prop :=
  ∃ v, r !! "Label_Flag" = Some v ∧ eq_int v 1 = false.

(** Every row has a [Label_Flag] cell (the column exists). *)
Definition has_label_flag (df : DataFrame) : Prop :=
  ∀ r, r ∈ rows df → is_Some (r !! "Label_Flag").

(** Cursor invariant of variant A over what persists between executions:
    the index is a row position of the file or its length. *)
Definition cursor_inv_A (file : option DataFrame) (st : option nat) : Prop :=
  match file, st with
  | Some df, Some i => i ≤ len df
  | _, _ => True
  end.

(** The row under variant A's cursor in an execution: the position the
    forward scan stops at and the row found there. *)
Definition cursor_A (w : Apl.world) (st : option nat) : option (nat * Row) :=
  match Apl.csv_file w with
  | Some df =>
      match Apl.scan df (default 0 st) with
      | inl i => (λ r, (i, r)) <$> rows df !! i
      | inr _ => None
      end
  | None => None
  end.

(** A row as a save leaves it: the labels of the form, [Label_Flag] 1,
    [Drop] the given string, every other column as in [r]. *)
Definition written_row (t : ptype) (s : psize) (d : pside) (dropped : value)
    (r r' : Row) : Prop :=
  labels_are t s d r' ∧
  r' !! "Label_Flag" = Some (VNum 1) ∧
  r' !! "Drop" = Some dropped ∧
  same_outside annotation_columns r r'.

(** A row as variant A's drop leaves it. *)
Definition dropped_row (r r' : Row) : Prop :=
  r' !! "Label_Flag" = Some (VNum 1) ∧
  (∃ v, r' !! "Drop" = Some v ∧ truthy v = true) ∧
  labels_kept r r' ∧
  same_outside ["Label_Flag"; "Drop"] r r'.

(** The execution ran a save or drop handler up to its write. *)
Definition handler_ran (shown : list notice) : Prop :=
  shown = [Saved] ∨ shown = [SaveFailed].

(** Only the "Previous" button, or only the "Next" button, is pressed. *)
Definition only_previous_A (ui : Apl.widgets) : Prop :=
  Apl.previous ui = true ∧ Apl.next ui = false ∧
  Apl.drop_checkbox ui = false ∧ Apl.save_changes ui = false.

Definition only_next_A (ui : Apl.widgets) : Prop :=
  Apl.next ui = true ∧ Apl.previous ui = false ∧
  Apl.drop_checkbox ui = false ∧ Apl.save_changes ui = false.

Definition only_previous_B (ui : App1.widgets) : Prop :=
  App1.previous ui = true ∧ App1.next ui = false ∧ App1.reset ui = false ∧
  App1.form_submit ui = false ∧ App1.drop_submit ui = false.

Definition only_next_B (ui : App1.widgets) : Prop :=
  App1.next ui = true ∧ App1.previous ui = false ∧ App1.reset ui = false ∧
  App1.form_submit ui = false ∧ App1.drop_submit ui = false.


(** The form of variant B as it is first shown for a row: every select box
    at its preselected option. *)
Definition untouched_form (r : Row) (ui : App1.widgets) : Prop :=
  App1.pneumothorax_type ui = App1.preselected_type r ∧
  App1.pneumothorax_size ui = App1.preselected_size r ∧
  App1.affected_side ui = App1.preselected_side r.

(** The three label cells of a row hold options of the form. *)
Definition labels_valid (r : Row) : Prop :=
  ∃ t s d, labels_are t s d r.

(** Neither handler button of variant A, resp. B, is pressed. *)
Definition no_handler_A (ui : Apl.widgets) : Prop :=
  Apl.drop_checkbox ui = false ∧ Apl.save_changes ui = false.

Definition no_handler_B (ui : App1.widgets) : Prop :=
  App1.form_submit ui = false ∧ App1.drop_submit ui = false.

(** From [df] to [df'] the table keeps its length and every row labeled
    for variant A stays labeled. *)
Definition labels_monotone_A (df df' : DataFrame) : Prop :=
  len df' = len df ∧
  ∀ j r, rows df !! j = Some r → labeled_A r →
         ∃ r', rows df' !! j = Some r' ∧ labeled_A r'.

Section Vocabulary_B.

Variable str_to_num : string → option Qc.

(** [Label_Flag] of a row coerced numerically, a missing or invalid value
    counting as 0. *)
Definition coerced_flag (r : Row) : value :=
  App1.fillna0 (App1.to_numeric str_to_num (default VNaN (r !! "Label_Flag"))).

Definition unlabeled_B (r : Row) : bool := eq_int (coerced_flag r) 0.

(** The unlabeled list in the words of the specification: the row indices,
    in the order of the table, whose coerced [Label_Flag] equals 0. *)
Definition unlabeled_rows (df : DataFrame) : list nat :=
  filter (λ i, Is_true (from_option unlabeled_B false (rows df !! i)))
         (seq 0 (len df)).

(** The position the specification prescribes for a fresh list. *)
Definition start_pos (l : list nat) : Z :=
  match l with [] => (-1)%Z | _ => 0%Z end.

(** The position is the sentinel or refers to an existing row of the
    dataset that is unlabeled. *)
Definition cursor_on_unlabeled (dataset : DataFrame) (ss : App1.session) : Prop :=
  App1.current_pos ss = (-1)%Z ∨
  ∃ i r, App1.py_getitem (App1.unlabeled_indices ss) (App1.current_pos ss) = Some i ∧
         rows dataset !! i = Some r ∧ unlabeled_B r = true.

(** Cursor invariant of variant B over what persists between executions:
    every listed index is an unlabeled row of the store and the position is
    the sentinel or lies within the list. *)
Definition cursor_inv_B (dataset : DataFrame) (st : option App1.session) : Prop :=
  match st with
  | None => True
  | Some ss =>
      (∀ i, i ∈ App1.unlabeled_indices ss →
            ∃ r, rows dataset !! i = Some r ∧ unlabeled_B r = true) ∧
      (App1.current_pos ss = (-1)%Z ∨
       (0 ≤ App1.current_pos ss < Z.of_nat (length (App1.unlabeled_indices ss)))%Z)
  end.

(** The row on display in an execution of variant B: the index found at the
    position and the row found at that index. *)
Definition cursor_B (w : App1.world) (f : App1.faults) (st : option App1.session)
    : option (nat * Row) :=
  match App1.load_data (App1.fetch_fails f) (App1.remote w) with
  | inl df0 =>
      let '(df, ss) := match st with
                       | Some ss => (df0, ss)
                       | None => App1.recompute str_to_num df0
                       end in
      match App1.get_current_image w df ss with
      | App1.Image i r _ => Some (i, r)
      | _ => None
      end
  | inr _ => None
  end.

(** From [df] to [df'] the table keeps its length and no row that variant B
    counts as labeled becomes unlabeled. *)
Definition labels_monotone_B (df df' : DataFrame) : Prop :=
  len df' = len df ∧
  ∀ j r, rows df !! j = Some r → unlabeled_B r = false →
         ∃ r', rows df' !! j = Some r' ∧ unlabeled_B r' = false.

End Vocabulary_B.

(** ** Sample tables *)

Definition sample_row (idx : Z) (name : string) (flag : value) : Row :=
  <["Index" := VNum (Qc_of_Z idx)]>
    (<["Image_Name" := VStr name]>
      (<["Label_Flag" := flag]>
        (<["Pneumothorax_Type" := VNaN]>
          (<["Pneumothorax_Size" := VNaN]>
            (<["Affected_Side" := VNaN]>
              (<["Drop" := VNaN]> ∅)))))).

Definition sample_columns : list string :=
  ["Index"; "Image_Name"; "Label_Flag"; "Pneumothorax_Type";
   "Pneumothorax_Size"; "Affected_Side"; "Drop"].

(** Three images, the first one labeled already. *)
Definition sample : DataFrame :=
  mkDF sample_columns
       [sample_row 0 "a.png" (VNum 1);
        sample_row 1 "b.png" (VNum 0);
        sample_row 2 "c.png" VNaN].

(** Three images, none labeled (the scenario of the specification). *)
Definition fresh : DataFrame :=
  mkDF sample_columns
       [sample_row 0 "a.png" (VNum 0);
        sample_row 1 "b.png" (VNum 0);
        sample_row 2 "c.png" (VNum 0)].

(** One image that is still to be reviewed but carries labels already. *)
Definition prelabeled : DataFrame :=
  mkDF sample_columns
       [<["Pneumothorax_Type" := VStr "Simple"]>
          (<["Pneumothorax_Size" := VStr "Large"]>
            (<["Affected_Side" := VStr "Left"]>
              (sample_row 0 "a.png" (VNum 0))))].

(** A table without the [Image_Name] column. *)
Definition nameless : DataFrame :=
  mkDF ["Index"; "Label_Flag"]
       [<["Index" := VNum 0]> (<["Label_Flag" := VNum 0]> ∅)].

(** Two images, both labeled. *)
Definition finished : DataFrame :=
  mkDF sample_columns
       [sample_row 0 "a.png" (VNum 1); sample_row 1 "b.png" (VNum 1)].

Definition no_image : string → bool := λ _, false.

Definition every_image : string → bool := λ _, true.

(** A parser that knows the strings "0" and "1". *)
Definition digits_only (s : string) : option Qc :=
  if bool_decide (s = "0") then Some 0%Qc
  else if bool_decide (s = "1") then Some 1%Qc
  else None.

(** The local disk of variant A and the remote store of variant B. *)
Definition sample_disk : Apl.world := Apl.mkWorld (Some sample) every_image true.
Definition full_disk : Apl.world := Apl.mkWorld (Some sample) every_image false.
Definition fresh_disk : Apl.world := Apl.mkWorld (Some fresh) every_image true.
Definition sample_remote : App1.world := App1.mkWorld fresh every_image.

(** A session of variant B on [fresh], at its first image. *)
Definition started : option App1.session := Some (App1.mkSession [0; 1; 2] 0).

(** Button presses.  For a row whose labels are still NaN the form of
    variant B preselects the second option of every box (Tension, Large,
    Left): [drop_press_B] is "Drop" pressed on the untouched form. *)
Definition save_press_A : Apl.widgets :=
  Apl.mkWidgets false Tension Large Left true false false.
Definition drop_press_A : Apl.widgets :=
  Apl.mkWidgets true Simple Small Right false false false.
Definition save_press_B : App1.widgets :=
  App1.mkWidgets false Tension Large Left true false false false.
Definition drop_press_B : App1.widgets :=
  App1.mkWidgets false Tension Large Left false true false false.

Definition previous_press_A : Apl.widgets :=
  Apl.mkWidgets false Simple Small Right false true false.
Definition next_press_A : Apl.widgets :=
  Apl.mkWidgets false Simple Small Right false false true.
Definition previous_press_B : App1.widgets :=
  App1.mkWidgets false Simple Small Right false false true false.
Definition next_press_B : App1.widgets :=
  App1.mkWidgets false Simple Small Right false false false true.

Definition drop_untouched_B : App1.widgets :=
  App1.mkWidgets false Simple Large Left false true false false.
Definition reset_press_B : App1.widgets :=
  App1.mkWidgets true Simple Small Right false false false false.

Definition commit_fault : App1.faults := App1.mkFaults false true false.
Definition reload_fault : App1.faults := App1.mkFaults false false true.

(** * Properties *)

(** ** Frames *)

Lemma at_set_len df i c v : len (at_set df i c v) = len df.
Proof. unfold len, at_set; simpl. apply length_imap. Qed.

Lemma at_set_row df i c v r :
  rows df !! i = Some r → rows (at_set df i c v) !! i = Some (<[c := v]> r).
Proof.
  intros Hr. unfold at_set; simpl. rewrite list_lookup_imap, Hr; simpl.
  by rewrite bool_decide_eq_true_2.
Qed.

Lemma at_set_columns df i c v c' :
  c' ∈ columns df → c' ∈ columns (at_set df i c v).
Proof.
  intros H. unfold at_set; simpl. case_bool_decide; [done|].
  apply elem_of_app. by left.
Qed.


(** ** Variant A: the forward scan *)

Lemma skip_labeled_inl rest i stop :
  Apl.skip_labeled rest i = inl stop →
  i ≤ stop ≤ i + length rest ∧
  (∀ k r, k < stop - i → rest !! k = Some r → labeled_A r) ∧
  (stop < i + length rest → ∃ r, rest !! (stop - i) = Some r ∧ not_labeled_A r).
Proof.
  revert i. induction rest as [|row rest IH]; intros i; simpl.
  - intros [= <-]. split_and!; [lia | lia | | lia].
    intros k r Hk. lia.
  - destruct (row !! "Label_Flag") as [flag|] eqn:Hflag; [|done].
    destruct (eq_int flag 1) eqn:Hone.
    + intros Hrec. apply IH in Hrec as (Hle & Hlab & Hstop).
      split_and!; [lia | lia | |].
      * intros [|k] r Hk Hr; simpl in Hr.
        -- injection Hr as <-. by exists flag.
        -- apply (Hlab k); [lia | done].
      * intros Hlt. destruct Hstop as (r & Hr & Hnot); [lia|].
        exists r. split; [|done].
        replace (stop - i) with (S (stop - S i)) by lia. done.
    + intros [= <-]. split_and!; [lia | lia | |].
      * intros k r Hk. lia.
      * intros _. exists row. rewrite Nat.sub_diag. split; [done|].
        by exists flag.
Qed.

Lemma skip_labeled_inr rest i stop :
  Apl.skip_labeled rest i = inr stop →
  ∃ r, rest !! (stop - i) = Some r ∧ i ≤ stop ∧ r !! "Label_Flag" = None.
Proof.
  revert i. induction rest as [|row rest IH]; intros i; simpl; [done|].
  destruct (row !! "Label_Flag") as [flag|] eqn:Hflag.
  - destruct (eq_int flag 1); [|done].
    intros Hrec. apply IH in Hrec as (r & Hr & Hle & Hnone).
    exists r. split_and!; [|lia|done].
    replace (stop - i) with (S (stop - S i)) by lia. done.
  - intros [= <-]. exists row. by rewrite Nat.sub_diag.
Qed.

Lemma scan_within df i stop :
  i ≤ len df → Apl.scan df i = inl stop → i ≤ stop ≤ len df.
Proof.
  intros Hi Hscan. apply skip_labeled_inl in Hscan as (Hle & _).
  rewrite length_drop in Hle. unfold len in *. lia.
Qed.

Lemma scan_raise_within df i stop :
  Apl.scan df i = inr stop → i ≤ stop < len df.
Proof.
  intros Hscan. apply skip_labeled_inr in Hscan as (r & Hr & Hle & _).
  apply lookup_lt_Some in Hr. rewrite length_drop in Hr. unfold len. lia.
Qed.

(** Started beyond the table, the loop is not entered and the index stays
    where it was. *)
Lemma scan_beyond_table df i : len df ≤ i → Apl.scan df i = inl i.
Proof. intros Hi. unfold Apl.scan. by rewrite drop_ge. Qed.

Lemma sample_has_label_flag : has_label_flag sample.
Proof.
  intros r Hr. apply list_elem_of_In in Hr. simpl in Hr.
  destruct Hr as [<-|[<-|[<-|[]]]]; vm_compute; eauto.
Qed.

(** C4.  Variant A's forward scan, started at an index of the table, never
    stops on a row whose [Label_Flag] equals 1: every row it passes has
    [Label_Flag == 1], and it ends either on the first row at or after the
    start whose [Label_Flag] is not 1, or with the index at the table length,
    in which case the script reports that all images are labeled and
    stops. *)
Theorem forward_scan_skips_labeled (w : Apl.world) (df : DataFrame) (i : nat)
    (ui : Apl.widgets) :
  Apl.csv_file w = Some df →
  has_label_flag df →
  i ≤ len df →
  ∃ stop,
    Apl.scan df i = inl stop ∧ i ≤ stop ≤ len df ∧
    (∀ j r, i ≤ j < stop → rows df !! j = Some r → labeled_A r) ∧
    ((∃ r, rows df !! stop = Some r ∧ not_labeled_A r) ∨
     (stop = len df ∧
      Apl.current_index (Apl.script w (Some i) ui) = Some (len df) ∧
      Apl.notices (Apl.script w (Some i) ui) = [AllLabeled] ∧
      Apl.ended (Apl.script w (Some i) ui) = Stopped)).
Proof.
  intros Hfile Hflag Hi.
  destruct (Apl.scan df i) as [stop|stop] eqn:Hscan.
  - exists stop. pose proof (scan_within _ _ _ Hi Hscan) as Hwithin.
    pose proof Hscan as Hspec. unfold Apl.scan in Hspec.
    apply skip_labeled_inl in Hspec as (_ & Hpassed & Hstop).
    rewrite length_drop in Hstop.
    split_and!; [done | lia | lia | |].
    + intros j r Hj Hr. apply (Hpassed (j - i)); [lia|].
      rewrite lookup_drop. by replace (i + (j - i)) with j by lia.
    + destruct (decide (stop < len df)) as [Hlt|Hge].
      * left. destruct Hstop as (r & Hr & Hnot); [unfold len in *; lia|].
        exists r. split; [|done].
        rewrite lookup_drop in Hr. by replace (i + (stop - i)) with stop in Hr by lia.
      * right. assert (stop = len df) as -> by lia.
        unfold Apl.script. rewrite Hfile; simpl. rewrite Hscan.
        rewrite bool_decide_eq_true_2 by lia. done.
  - exfalso. unfold Apl.scan in Hscan.
    apply skip_labeled_inr in Hscan as (r & Hr & _ & Hnone).
    rewrite lookup_drop in Hr. apply list_elem_of_lookup_2 in Hr.
    destruct (Hflag r Hr) as [v Hv]. congruence.
Qed.

Lemma forward_scan_skips_labeled_witness :
  ∃ stop,
    Apl.scan sample 0 = inl stop ∧ 0 ≤ stop ≤ len sample ∧
    (∀ j r, 0 ≤ j < stop → rows sample !! j = Some r → labeled_A r) ∧
    ((∃ r, rows sample !! stop = Some r ∧ not_labeled_A r) ∨
     (stop = len sample ∧
      Apl.current_index
        (Apl.script (Apl.mkWorld (Some sample) every_image true) (Some 0) Apl.idle)
        = Some (len sample) ∧
      Apl.notices
        (Apl.script (Apl.mkWorld (Some sample) every_image true) (Some 0) Apl.idle)
        = [AllLabeled] ∧
      Apl.ended
        (Apl.script (Apl.mkWorld (Some sample) every_image true) (Some 0) Apl.idle)
        = Stopped)).
Proof.
  apply (forward_scan_skips_labeled
           (Apl.mkWorld (Some sample) every_image true) sample 0 Apl.idle).
  - reflexivity.
  - exact sample_has_label_flag.
  - vm_compute. lia.
Defined.

(** ** Variant B: the unlabeled list *)

Lemma update_row_self (r : Row) : App1.update_row r r = r.
Proof.
  apply map_eq. intros c. unfold App1.update_row. rewrite map_lookup_imap.
  destruct (r !! c) as [v|]; simpl; [|done].
  by destruct (isna v).
Qed.

Lemma df_update_self df : App1.df_update df df = df.
Proof.
  destruct df as [cols rs]. unfold App1.df_update; simpl. f_equal.
  apply list_eq. intros i. rewrite list_lookup_imap.
  destruct (rs !! i) as [r|] eqn:Hr; simpl; [|done].
  by rewrite update_row_self.
Qed.

Lemma index_where_filter {A} (f : A → bool) (P : nat → bool) (l : list A) i :
  (∀ k x, l !! k = Some x → f x = P (i + k)) →
  App1.index_where (f <$> l) i = filter (λ j, Is_true (P j)) (seq i (length l)).
Proof.
  revert i. induction l as [|x l IH]; intros i Hf; [done|].
  rewrite fmap_cons. cbn [App1.index_where length seq].
  rewrite filter_cons.
  pose proof (Hf 0 x eq_refl) as Hx. rewrite Nat.add_0_r in Hx.
  rewrite (IH (S i)).
  - rewrite Hx. by destruct (P i).
  - intros k y Hy. rewrite (Hf (S k) y Hy). f_equal. lia.
Qed.


Section Unlabeled_list.

Variable str_to_num : string → option Qc.

Lemma flag_is_zero_coerced (r : Row) :
  App1.flag_is_zero (<["Label_Flag" := coerced_flag str_to_num r]> r)
  = unlabeled_B str_to_num r.
Proof. unfold App1.flag_is_zero. by rewrite lookup_insert_eq. Qed.

Lemma recompute_spec df :
  App1.recompute str_to_num df =
  (App1.coerce_label_flag str_to_num df,
   App1.mkSession (unlabeled_rows str_to_num df)
                  (start_pos (unlabeled_rows str_to_num df))).
Proof.
  unfold App1.recompute, App1.coerce_label_flag; simpl.
  rewrite <- list_fmap_compose.
  rewrite (index_where_filter _
             (λ j, from_option (unlabeled_B str_to_num) false (rows df !! j))).
  - done.
  - intros k r Hr. simpl. rewrite Hr. simpl. apply flag_is_zero_coerced.
Qed.

Lemma elem_of_unlabeled_rows df i :
  i ∈ unlabeled_rows str_to_num df ↔
  ∃ r, rows df !! i = Some r ∧ unlabeled_B str_to_num r = true.
Proof.
  unfold unlabeled_rows. rewrite list_elem_of_filter, elem_of_seq.
  split.
  - intros [HP _]. destruct (rows df !! i) as [r|]; simpl in HP; [|done].
    exists r. split; [done|]. by apply Is_true_true.
  - intros (r & Hr & Hun). rewrite Hr; simpl. split; [by apply Is_true_true|].
    apply lookup_lt_Some in Hr. unfold len. lia.
Qed.


End Unlabeled_list.

Lemma load_data_inl fails content df :
  App1.load_data fails content = inl df →
  df = content ∧ fails = false ∧
  "Index" ∈ columns df ∧ "Image_Name" ∈ columns df ∧ "Label_Flag" ∈ columns df.
Proof.
  unfold App1.load_data. destruct fails; [done|].
  destruct (forallb _ _) eqn:Hall; [|done].
  intros [= <-]. simpl in Hall.
  repeat (apply andb_prop in Hall as [?%bool_decide_eq_true Hall]).
  done.
Qed.

Lemma session_eta (ss : App1.session) :
  App1.mkSession (App1.unlabeled_indices ss) (App1.current_pos ss) = ss.
Proof. by destruct ss. Qed.

Lemma start_pos_decide (l : list nat) :
  start_pos l = if decide (l = []) then (-1)%Z else 0%Z.
Proof. by destruct l. Qed.


(** The scenario of the specification: three unlabeled rows, the first one
    saved; the list becomes [1; 2] and the position 0. *)
Example recompute_after_first_row_saved :
  let ui := App1.mkWidgets false Tension Large Left true false false false in
  let out := App1.script digits_only (App1.mkWorld fresh every_image) App1.no_faults
               (Some (App1.mkSession [0; 1; 2] 0)) ui in
  App1.state out = Some (App1.mkSession [1; 2] 0) ∧
  cell (App1.store out) 0 "Label_Flag" = Some (VNum 1) ∧
  cell (App1.store out) 0 "Drop" = Some (VStr "False") ∧
  cell (App1.store out) 0 "Pneumothorax_Type" = Some (VStr "Tension") ∧
  cell (App1.store out) 0 "Pneumothorax_Size" = Some (VStr "Large") ∧
  cell (App1.store out) 0 "Affected_Side" = Some (VStr "Left").
Proof. vm_compute. done. Qed.

(** ** The handlers' writes *)

Ltac other_columns H :=
  repeat (apply not_elem_of_cons in H as [? H]);
  repeat (rewrite lookup_insert_ne by done); done.

Lemma save_row_written df i ui r :
  rows df !! i = Some r →
  ∃ r', rows (Apl.save_row df i ui) !! i = Some r' ∧
        written_row (Apl.pneumothorax_type ui) (Apl.pneumothorax_Size ui)
                    (Apl.Affected_Side ui) (VStr "False") r r'.
Proof.
  intros Hr. unfold Apl.save_row. eexists. split.
  - repeat (apply at_set_row). exact Hr.
  - unfold written_row, labels_are. split_and!.
    + by repeat (rewrite lookup_insert_ne by done); rewrite lookup_insert_eq.
    + by repeat (rewrite lookup_insert_ne by done); rewrite lookup_insert_eq.
    + by repeat (rewrite lookup_insert_ne by done); rewrite lookup_insert_eq.
    + by repeat (rewrite lookup_insert_ne by done); rewrite lookup_insert_eq.
    + by rewrite lookup_insert_eq.
    + intros c Hc. unfold annotation_columns in Hc. other_columns Hc.
Qed.

Lemma drop_row_dropped df i ui r :
  Apl.drop_checkbox ui = true →
  rows df !! i = Some r →
  ∃ r', rows (Apl.drop_row df i ui) !! i = Some r' ∧
        r' !! "Drop" = Some (VBool true) ∧ dropped_row r r'.
Proof.
  intros Hdrop Hr. unfold Apl.drop_row. rewrite Hdrop. eexists. split.
  - repeat (apply at_set_row). exact Hr.
  - unfold dropped_row, labels_kept. split_and!.
    + by rewrite lookup_insert_eq.
    + by rewrite lookup_insert_ne by done; rewrite lookup_insert_eq.
    + exists (VBool true). by rewrite lookup_insert_eq.
    + by repeat (rewrite lookup_insert_ne by done).
    + by repeat (rewrite lookup_insert_ne by done).
    + by repeat (rewrite lookup_insert_ne by done).
    + intros c Hc. other_columns Hc.
Qed.

Lemma apply_form_written df i ui r :
  rows df !! i = Some r →
  ∃ r', rows (App1.apply_form df i ui) !! i = Some r' ∧
        written_row (App1.pneumothorax_type ui) (App1.pneumothorax_size ui)
                    (App1.affected_side ui)
                    (VStr (if App1.drop_submit ui then "True" else "False")) r r'.
Proof.
  intros Hr. unfold App1.apply_form. eexists. split.
  - repeat (apply at_set_row). exact Hr.
  - unfold written_row, labels_are. split_and!.
    + by repeat (rewrite lookup_insert_ne by done); rewrite lookup_insert_eq.
    + by repeat (rewrite lookup_insert_ne by done); rewrite lookup_insert_eq.
    + by repeat (rewrite lookup_insert_ne by done); rewrite lookup_insert_eq.
    + by repeat (rewrite lookup_insert_ne by done); rewrite lookup_insert_eq.
    + by rewrite lookup_insert_eq.
    + intros c Hc. unfold annotation_columns in Hc. other_columns Hc.
Qed.

Lemma save_row_len df i ui : len (Apl.save_row df i ui) = len df.
Proof. unfold Apl.save_row. by rewrite !at_set_len. Qed.

Lemma drop_row_len df i ui : len (Apl.drop_row df i ui) = len df.
Proof. unfold Apl.drop_row. by rewrite !at_set_len. Qed.

(** ** Variant A: which executions reach a handler *)

(** The frame variant A's handlers leave in memory. *)
Lemma apl_handler_ran w st ui :
  handler_ran (Apl.notices (Apl.script w st ui)) →
  ∃ df i r,
    Apl.csv_file w = Some df ∧ cursor_A w st = Some (i, r) ∧
    rows df !! i = Some r ∧
    (Apl.drop_checkbox ui = true ∨ Apl.save_changes ui = true) ∧
    let df' := if Apl.drop_checkbox ui then Apl.drop_row df i ui
               else Apl.save_row df i ui in
    Apl.script w st ui =
      Apl.mkOutcome (Some (Apl.navigate (len df') ui i)) (Some df')
        (if Apl.disk_writable w then Some df' else Apl.csv_file w)
        [if Apl.disk_writable w then Saved else SaveFailed] Completed.
Proof.
  unfold handler_ran, cursor_A, Apl.script, Apl.to_csv.
  destruct (Apl.csv_file w) as [df|]; [|by intros [|]].
  destruct (Apl.scan df (default 0 st)) as [i|i]; [|by intros [|]].
  case_bool_decide; [by intros [|]|].
  unfold iloc. destruct (rows df !! i) as [r|] eqn:Hrow; [|by intros [|]].
  destruct (r !! "Image_Name") as [[| | |name]|]; try by intros [|].
  destruct (Apl.image_exists w _); [|by intros [|]].
  destruct (r !! "Index"); [|by intros [|]].
  destruct (Apl.drop_checkbox ui) eqn:Hdrop.
  - intros _. exists df, i, r. split_and!; [done | done | done | by left |].
    by destruct (Apl.disk_writable w).
  - destruct (Apl.save_changes ui) eqn:Hsave; [|by intros [|]].
    intros _. exists df, i, r. split_and!; [done | done | done | by right |].
    by destruct (Apl.disk_writable w).
Qed.

(** ** Variant B: which executions reach the handler *)

Lemma get_current_image_Image w df ss i r name :
  App1.get_current_image w df ss = App1.Image i r name →
  App1.current_pos ss ≠ (-1)%Z ∧
  App1.py_getitem (App1.unlabeled_indices ss) (App1.current_pos ss) = Some i ∧
  rows df !! i = Some r ∧
  r !! "Image_Name" = Some (VStr name) ∧
  App1.image_exists w (path_join App1.images_folder name) = true.
Proof.
  unfold App1.get_current_image, iloc. case_bool_decide; [done|].
  destruct (App1.py_getitem _ _) as [j|]; [|done].
  destruct (rows df !! j) as [r0|] eqn:Hrow; [|done].
  destruct (r0 !! "Image_Name") as [[| | |name0]|] eqn:Hname; try done.
  destruct (App1.image_exists w _) eqn:Himg; [|done].
  intros [= <- <- <-]. done.
Qed.

(** Within one execution the pre-save check compares the frame with
    itself: for the row on display it always succeeds. *)
Lemma verify_displayed w df ss i r name :
  App1.get_current_image w df ss = App1.Image i r name →
  App1.verify_before_save df i (VStr name) = true.
Proof.
  intros (_ & _ & Hr & Hname & _)%get_current_image_Image.
  unfold App1.verify_before_save, iloc. rewrite Hr, Hname. simpl.
  by apply bool_decide_eq_true.
Qed.

Lemma not_handler_ran_load fails content shown :
  App1.load_data fails content = inr shown → ¬ handler_ran [shown].
Proof.
  unfold App1.load_data. destruct fails; [|destruct (forallb _ _)];
    intros [= <-] [H|H]; discriminate.
Qed.

Lemma not_handler_ran_no_images shown : ¬ handler_ran (shown ++ [NoImages]).
Proof. intros [H|H]; destruct shown as [|? [|? ?]]; simpl in H; congruence. Qed.

Section Handler_B.

Variable str_to_num : string → option Qc.

Lemma app1_handler_ran w f st ui :
  handler_ran (App1.notices (App1.script str_to_num w f st ui)) →
  ∃ df ss i r name,
    (df, ss) = match st with
               | Some ss => (App1.remote w, ss)
               | None => App1.recompute str_to_num (App1.remote w)
               end ∧
    App1.get_current_image w df ss = App1.Image i r name ∧
    cursor_B str_to_num w f st = Some (i, r) ∧
    (App1.form_submit ui = true ∨ App1.drop_submit ui = true) ∧
    let GT1 := App1.apply_form df i ui in
    App1.script str_to_num w f st ui =
      if App1.commit_fails f
      then App1.mkOutcome (Some ss) (Some GT1) (App1.remote w) [SaveFailed] Rerun
      else App1.mkOutcome (Some (App1.recompute str_to_num GT1).2)
                          (Some (App1.recompute str_to_num GT1).1)
                          GT1 [Saved] Rerun.
Proof.
  unfold cursor_B, App1.script.
  destruct (App1.load_data _ _) as [df0|shown] eqn:Hload;
    [|by intros ?%(not_handler_ran_load _ _ _ Hload)].
  apply load_data_inl in Hload as (-> & _).
  destruct (match st with
            | Some ss => (App1.remote w, ss)
            | None => App1.recompute str_to_num (App1.remote w)
            end) as [df ss] eqn:Hstart.
  destruct (App1.reset ui); [by intros [|]|].
  destruct (App1.get_current_image w df ss) as [shown|i r name|] eqn:Himage;
    [by intros ?%not_handler_ran_no_images | | by intros [|]].
  destruct (App1.form_submit ui || App1.drop_submit ui) eqn:Hpressed.
  - unfold App1.submit. rewrite (verify_displayed _ _ _ _ _ _ Himage).
    cbn [negb]. unfold App1.update_system.
    destruct (App1.commit_fails f).
    + intros _. exists df, ss, i, r, name.
      split_and!; [done | done | done | | done].
      apply orb_prop in Hpressed. done.
    + destruct (App1.load_data _ _) as [new_data|shown] eqn:Hreload.
      * apply load_data_inl in Hreload as (-> & _). rewrite df_update_self.
        destruct (App1.recompute str_to_num (App1.apply_form df i ui)) as [df2 ss2]
          eqn:Hre.
        intros _. exists df, ss, i, r, name.
        split_and!; [done | done | done | | by cbv zeta; rewrite Hre].
        apply orb_prop in Hpressed. done.
      * by intros ?%(not_handler_ran_load _ _ _ Hreload).
  - destruct (App1.navigate ss ui). by intros [|].
Qed.

End Handler_B.

Section Coerced.

Variable str_to_num : string → option Qc.

Lemma coerced_flag_labeled (r : Row) :
  r !! "Label_Flag" = Some (VNum 1) → coerced_flag str_to_num r = VNum 1.
Proof. intros Hr. unfold coerced_flag. by rewrite Hr. Qed.

Lemma coerce_label_flag_row df i :
  rows (App1.coerce_label_flag str_to_num df) !! i
  = (λ r : Row, <["Label_Flag" := coerced_flag str_to_num r]> r) <$> rows df !! i.
Proof. unfold App1.coerce_label_flag; simpl. by rewrite list_lookup_fmap. Qed.

Lemma coerce_label_flag_labeled_row df i r :
  rows df !! i = Some r → r !! "Label_Flag" = Some (VNum 1) →
  rows (App1.coerce_label_flag str_to_num df) !! i = Some r.
Proof.
  intros Hr Hflag. rewrite coerce_label_flag_row, Hr. simpl.
  rewrite (coerced_flag_labeled _ Hflag). by rewrite insert_id.
Qed.

End Coerced.






Lemma one_is_not_zero : eq_int (VNum 1) 0 = false.
Proof. reflexivity. Qed.

(** C5.  After a successful save or drop in variant B the row's
    [Label_Flag] is 1 in the store and in memory, the recomputed list is the
    unlabeled list of the stored table and does not contain the row, and the
    position is 0, or -1 when the list is empty, whatever it was before. *)
Theorem saved_row_leaves_the_list (str_to_num : string → option Qc)
    (w : App1.world) (f : App1.faults) (st : option App1.session)
    (ui : App1.widgets) :
  App1.notices (App1.script str_to_num w f st ui) = [Saved] →
  ∃ i r df' ss',
    cursor_B str_to_num w f st = Some (i, r) ∧
    cell (App1.store (App1.script str_to_num w f st ui)) i "Label_Flag"
      = Some (VNum 1) ∧
    App1.GT_Pneumothorax (App1.script str_to_num w f st ui) = Some df' ∧
    cell df' i "Label_Flag" = Some (VNum 1) ∧
    App1.state (App1.script str_to_num w f st ui) = Some ss' ∧
    (i ∉ App1.unlabeled_indices ss') ∧
    App1.unlabeled_indices ss'
      = unlabeled_rows str_to_num (App1.store (App1.script str_to_num w f st ui)) ∧
    App1.current_pos ss'
      = if decide (App1.unlabeled_indices ss' = []) then (-1)%Z else 0%Z.
Proof.
  intros Hsaved.
  destruct (app1_handler_ran str_to_num w f st ui)
    as (df & ss & i & r & name & _ & Himage & Hcur & _ & Hrun); [by left|].
  cbv zeta in Hrun. rewrite Hrun in Hsaved |- *.
  destruct (App1.commit_fails f); [done|].
  apply get_current_image_Image in Himage as (_ & _ & Hr & _).
  destruct (apply_form_written df i ui r Hr) as (r' & Hr' & _ & Hflag & _).
  rewrite recompute_spec. cbn [fst snd App1.state App1.GT_Pneumothorax App1.store
    App1.unlabeled_indices App1.current_pos].
  exists i, r, (App1.coerce_label_flag str_to_num (App1.apply_form df i ui)),
    (App1.mkSession (unlabeled_rows str_to_num (App1.apply_form df i ui))
       (start_pos (unlabeled_rows str_to_num (App1.apply_form df i ui)))).
  cbn [App1.unlabeled_indices App1.current_pos].
  split_and!; try done.
  - unfold cell. by rewrite Hr'.
  - unfold cell.
    rewrite (coerce_label_flag_labeled_row str_to_num _ _ _ Hr' Hflag). done.
  - rewrite elem_of_unlabeled_rows. intros (r0 & Hr0 & Hzero).
    assert (r0 = r') as -> by congruence.
    unfold unlabeled_B in Hzero.
    rewrite (coerced_flag_labeled str_to_num _ Hflag) in Hzero.
    by rewrite one_is_not_zero in Hzero.
  - apply start_pos_decide.
Qed.

Lemma saved_row_leaves_the_list_witness :
  ∃ i r df' ss',
    cursor_B digits_only sample_remote App1.no_faults started = Some (i, r) ∧
    cell (App1.store
            (App1.script digits_only sample_remote App1.no_faults started save_press_B))
         i "Label_Flag" = Some (VNum 1) ∧
    App1.GT_Pneumothorax
      (App1.script digits_only sample_remote App1.no_faults started save_press_B)
      = Some df' ∧
    cell df' i "Label_Flag" = Some (VNum 1) ∧
    App1.state
      (App1.script digits_only sample_remote App1.no_faults started save_press_B)
      = Some ss' ∧
    (i ∉ App1.unlabeled_indices ss') ∧
    App1.unlabeled_indices ss'
      = unlabeled_rows digits_only
          (App1.store
             (App1.script digits_only sample_remote App1.no_faults started save_press_B)) ∧
    App1.current_pos ss'
      = if decide (App1.unlabeled_indices ss' = []) then (-1)%Z else 0%Z.
Proof.
  apply (saved_row_leaves_the_list digits_only sample_remote App1.no_faults
           started save_press_B).
  vm_compute. reflexivity.
Defined.

(** The position is not carried over: saving the second of three unlabeled
    rows from position 1 leaves the list [0; 2] and the position 0. *)
Example position_resets_after_save :
  App1.state (App1.script digits_only sample_remote App1.no_faults
                (Some (App1.mkSession [0; 1; 2] 1)) save_press_B)
  = Some (App1.mkSession [0; 2] 0).
Proof. vm_compute. reflexivity. Qed.

(** C9.  When the write to the store fails during a save or drop, the row
    in memory keeps the values the handler gave it while the store is what
    it was before. *)
Theorem failed_write_keeps_memory
    (wA : Apl.world) (stA : option nat) (uiA : Apl.widgets)
    (str_to_num : string → option Qc)
    (wB : App1.world) (f : App1.faults) (stB : option App1.session)
    (uiB : App1.widgets) :
  (Apl.notices (Apl.script wA stA uiA) = [SaveFailed] →
   ∃ i r df' r',
     cursor_A wA stA = Some (i, r) ∧
     Apl.GT_Pneumothorax (Apl.script wA stA uiA) = Some df' ∧
     rows df' !! i = Some r' ∧
     r' !! "Label_Flag" = Some (VNum 1) ∧
     (if Apl.drop_checkbox uiA
      then r' !! "Drop" = Some (VBool true) ∧ dropped_row r r'
      else written_row (Apl.pneumothorax_type uiA) (Apl.pneumothorax_Size uiA)
                       (Apl.Affected_Side uiA) (VStr "False") r r') ∧
     Apl.disk (Apl.script wA stA uiA) = Apl.csv_file wA) ∧
  (App1.notices (App1.script str_to_num wB f stB uiB) = [SaveFailed] →
   ∃ i r df' r',
     cursor_B str_to_num wB f stB = Some (i, r) ∧
     App1.GT_Pneumothorax (App1.script str_to_num wB f stB uiB) = Some df' ∧
     rows df' !! i = Some r' ∧
     written_row (App1.pneumothorax_type uiB) (App1.pneumothorax_size uiB)
                 (App1.affected_side uiB)
                 (VStr (if App1.drop_submit uiB then "True" else "False")) r r' ∧
     App1.store (App1.script str_to_num wB f stB uiB) = App1.remote wB).
Proof.
  split.
  - intros Hfailed.
    destruct (apl_handler_ran wA stA uiA)
      as (df & i & r & Hfile & Hcur & Hr & _ & Hrun); [by right|].
    cbv zeta in Hrun. rewrite Hrun in Hfailed |- *.
    destruct (Apl.disk_writable wA); [done|].
    destruct (Apl.drop_checkbox uiA) eqn:Hdrop.
    + destruct (drop_row_dropped df i uiA r Hdrop Hr) as (r' & Hr' & Hbool & Hdropped).
      exists i, r, (Apl.drop_row df i uiA), r'.
      split_and!; try done. apply Hdropped.
    + destruct (save_row_written df i uiA r Hr) as (r' & Hr' & Hwritten).
      exists i, r, (Apl.save_row df i uiA), r'.
      split_and!; try done. apply Hwritten.
  - intros Hfailed.
    destruct (app1_handler_ran str_to_num wB f stB uiB)
      as (df & ss & i & r & name & _ & Himage & Hcur & _ & Hrun); [by right|].
    cbv zeta in Hrun. rewrite Hrun in Hfailed |- *.
    destruct (App1.commit_fails f); [|done].
    apply get_current_image_Image in Himage as (_ & _ & Hr & _).
    destruct (apply_form_written df i uiB r Hr) as (r' & Hr' & Hwritten).
    by exists i, r, (App1.apply_form df i uiB), r'.
Qed.

Lemma failed_write_keeps_memory_witness :
  (∃ i r df' r',
     cursor_A full_disk (Some 0) = Some (i, r) ∧
     Apl.GT_Pneumothorax (Apl.script full_disk (Some 0) save_press_A) = Some df' ∧
     rows df' !! i = Some r' ∧
     r' !! "Label_Flag" = Some (VNum 1) ∧
     (if Apl.drop_checkbox save_press_A
      then r' !! "Drop" = Some (VBool true) ∧ dropped_row r r'
      else written_row Tension Large Left (VStr "False") r r') ∧
     Apl.disk (Apl.script full_disk (Some 0) save_press_A) = Apl.csv_file full_disk) ∧
  (∃ i r df' r',
     cursor_B digits_only sample_remote commit_fault started = Some (i, r) ∧
     App1.GT_Pneumothorax
       (App1.script digits_only sample_remote commit_fault started drop_press_B)
       = Some df' ∧
     rows df' !! i = Some r' ∧
     written_row Tension Large Left
                 (VStr (if App1.drop_submit drop_press_B then "True" else "False"))
                 r r' ∧
     App1.store (App1.script digits_only sample_remote commit_fault started drop_press_B)
       = App1.remote sample_remote).
Proof.
  destruct (failed_write_keeps_memory full_disk (Some 0) save_press_A
              digits_only sample_remote commit_fault started drop_press_B)
    as [HA HB].
  split; [apply HA | apply HB]; vm_compute; reflexivity.
Defined.

(** ** Navigation *)

(** C7.  "Previous" pressed while the cursor is at position 0, and "Next"
    pressed while it is at the last position, change nothing: the position
    and the store after the execution are those before it.  In variant A
    the cursor position is the index the forward scan rests on; in variant
    B it is [current_pos] within the unlabeled list. *)
Theorem navigation_clamped
    (wA : Apl.world) (stA : option nat) (uiA : Apl.widgets) (df : DataFrame)
    (str_to_num : string → option Qc)
    (wB : App1.world) (f : App1.faults) (ss : App1.session) (uiB : App1.widgets) :
  (Apl.csv_file wA = Some df → only_previous_A uiA →
   Apl.scan df (default 0 stA) = inl 0 →
   Apl.current_index (Apl.script wA stA uiA) = Some 0 ∧
   Apl.disk (Apl.script wA stA uiA) = Apl.csv_file wA) ∧
  (Apl.csv_file wA = Some df → only_next_A uiA →
   0 < len df → Apl.scan df (default 0 stA) = inl (len df - 1) →
   Apl.current_index (Apl.script wA stA uiA) = Some (len df - 1) ∧
   Apl.disk (Apl.script wA stA uiA) = Apl.csv_file wA) ∧
  (only_previous_B uiB → App1.current_pos ss = 0%Z →
   App1.state (App1.script str_to_num wB f (Some ss) uiB) = Some ss ∧
   App1.store (App1.script str_to_num wB f (Some ss) uiB) = App1.remote wB ∧
   App1.ended (App1.script str_to_num wB f (Some ss) uiB) ≠ Rerun) ∧
  (only_next_B uiB →
   App1.current_pos ss = (Z.of_nat (length (App1.unlabeled_indices ss)) - 1)%Z →
   App1.state (App1.script str_to_num wB f (Some ss) uiB) = Some ss ∧
   App1.store (App1.script str_to_num wB f (Some ss) uiB) = App1.remote wB ∧
   App1.ended (App1.script str_to_num wB f (Some ss) uiB) ≠ Rerun).
Proof.
  split_and!.
  - intros Hfile (Hprev & Hnext & Hdrop & Hsave) Hscan.
    unfold Apl.script, Apl.navigate. rewrite Hfile, Hscan, Hdrop, Hsave, Hprev, Hnext.
    repeat case_match; done.
  - intros Hfile (Hnext & Hprev & Hdrop & Hsave) Hlen Hscan.
    unfold Apl.script, Apl.navigate. rewrite Hfile, Hscan, Hdrop, Hsave, Hprev, Hnext.
    simpl. rewrite (bool_decide_eq_false_2 (len df - 1 < len df - 1)) by lia.
    repeat case_match; done.
  - intros (Hprev & Hnext & Hreset & Hsave & Hdrop) Hpos.
    unfold App1.script, App1.navigate.
    rewrite Hreset, Hsave, Hdrop, Hprev, Hnext, Hpos. simpl.
    destruct (App1.load_data _ _); [|done].
    destruct (App1.get_current_image _ _ _); simpl; try done.
    rewrite <- Hpos. by rewrite session_eta.
  - intros (Hnext & Hprev & Hreset & Hsave & Hdrop) Hpos.
    unfold App1.script, App1.navigate.
    rewrite Hreset, Hsave, Hdrop, Hprev, Hnext. simpl.
    rewrite (bool_decide_eq_false_2 (App1.current_pos ss < _)%Z) by lia.
    destruct (App1.load_data _ _); [|done].
    destruct (App1.get_current_image _ _ _); simpl; try done.
    by rewrite session_eta.
Qed.

Lemma navigation_clamped_witness :
  (Apl.current_index (Apl.script fresh_disk (Some 0) previous_press_A) = Some 0 ∧
   Apl.disk (Apl.script fresh_disk (Some 0) previous_press_A) = Some fresh) ∧
  (Apl.current_index (Apl.script fresh_disk (Some 2) next_press_A) = Some 2 ∧
   Apl.disk (Apl.script fresh_disk (Some 2) next_press_A) = Some fresh) ∧
  (App1.state (App1.script digits_only sample_remote App1.no_faults
                 (Some (App1.mkSession [0; 1; 2] 0)) previous_press_B)
   = Some (App1.mkSession [0; 1; 2] 0)) ∧
  (App1.state (App1.script digits_only sample_remote App1.no_faults
                 (Some (App1.mkSession [0; 1; 2] 2)) next_press_B)
   = Some (App1.mkSession [0; 1; 2] 2)).
Proof.
  destruct (navigation_clamped fresh_disk (Some 0) previous_press_A fresh
              digits_only sample_remote App1.no_faults
              (App1.mkSession [0; 1; 2] 0) previous_press_B)
    as (HpreviousA & _ & HpreviousB & _).
  destruct (navigation_clamped fresh_disk (Some 2) next_press_A fresh
              digits_only sample_remote App1.no_faults
              (App1.mkSession [0; 1; 2] 2) next_press_B)
    as (_ & HnextA & _ & HnextB).
  split; [|split; [|split]].
  - apply HpreviousA; [reflexivity | by repeat split | reflexivity].
  - apply HnextA; [reflexivity | by repeat split | vm_compute; lia | reflexivity].
  - apply HpreviousB; [by repeat split | reflexivity].
  - apply HnextB; [by repeat split | reflexivity].
Defined.

(** ** The pre-save check *)

(** C8.  When the pre-save check of variant B finds that the [Image_Name]
    of the row at the saved index is not the name that was displayed, the
    handler writes nothing: the store and the session state are what they
    were, the frame in memory is the one reloaded from the store, not the
    edited one, and the script is rerun.  (If the reload itself fails the
    script stops, again without having applied the edit.) *)
Theorem mismatch_discards_edit (str_to_num : string → option Qc)
    (w : App1.world) (f : App1.faults) (df : DataFrame) (ss : App1.session)
    (csv_idx : nat) (original_name : value) (ui : App1.widgets) :
  App1.verify_before_save df csv_idx original_name = false →
  App1.state (App1.submit str_to_num w f df ss csv_idx original_name ui) = Some ss ∧
  App1.store (App1.submit str_to_num w f df ss csv_idx original_name ui)
    = App1.remote w ∧
  match App1.load_data (App1.refetch_fails f) (App1.remote w) with
  | inl reloaded =>
      reloaded = App1.remote w ∧
      App1.GT_Pneumothorax (App1.submit str_to_num w f df ss csv_idx original_name ui)
        = Some reloaded ∧
      App1.notices (App1.submit str_to_num w f df ss csv_idx original_name ui)
        = [Mismatch] ∧
      App1.ended (App1.submit str_to_num w f df ss csv_idx original_name ui) = Rerun
  | inr shown =>
      App1.GT_Pneumothorax (App1.submit str_to_num w f df ss csv_idx original_name ui)
        = Some df ∧
      App1.notices (App1.submit str_to_num w f df ss csv_idx original_name ui)
        = [Mismatch; shown] ∧
      App1.ended (App1.submit str_to_num w f df ss csv_idx original_name ui) = Stopped
  end.
Proof.
  intros Hverify. unfold App1.submit. rewrite Hverify. cbn [negb].
  destruct (App1.load_data _ _) as [reloaded|shown] eqn:Hload.
  - apply load_data_inl in Hload as (-> & _). done.
  - done.
Qed.

Lemma mismatch_discards_edit_witness :
  App1.state (App1.submit digits_only sample_remote App1.no_faults fresh
                (App1.mkSession [0; 1; 2] 0) 0 (VStr "z.png") save_press_B)
    = Some (App1.mkSession [0; 1; 2] 0) ∧
  App1.store (App1.submit digits_only sample_remote App1.no_faults fresh
                (App1.mkSession [0; 1; 2] 0) 0 (VStr "z.png") save_press_B)
    = fresh ∧
  App1.GT_Pneumothorax
    (App1.submit digits_only sample_remote App1.no_faults fresh
       (App1.mkSession [0; 1; 2] 0) 0 (VStr "z.png") save_press_B)
    = Some fresh ∧
  App1.ended (App1.submit digits_only sample_remote App1.no_faults fresh
                (App1.mkSession [0; 1; 2] 0) 0 (VStr "z.png") save_press_B)
    = Rerun.
Proof.
  destruct (mismatch_discards_edit digits_only sample_remote App1.no_faults fresh
              (App1.mkSession [0; 1; 2] 0) 0 (VStr "z.png") save_press_B)
    as (Hstate & Hstore & Hrest).
  - vm_compute. reflexivity.
  - split_and!; [exact Hstate | exact Hstore | |].
    + change (App1.load_data (App1.refetch_fails App1.no_faults)
                (App1.remote sample_remote)) with (@inl DataFrame notice fresh) in Hrest.
      apply Hrest.
    + change (App1.load_data (App1.refetch_fails App1.no_faults)
                (App1.remote sample_remote)) with (@inl DataFrame notice fresh) in Hrest.
      apply Hrest.
Defined.

(** ** The values written to [Drop] *)












(** ** The cursor invariant *)

Lemma navigate_lt n ui i : i < n → Apl.navigate n ui i < n.
Proof.
  intros Hi. unfold Apl.navigate.
  destruct (Apl.previous ui && bool_decide (0 < i)) eqn:Hprev;
    destruct (Apl.next ui && _) eqn:Hnext;
    try apply andb_prop in Hnext as [_ Hnext%bool_decide_eq_true]; lia.
Qed.

Section Cursor_B.

Variable str_to_num : string → option Qc.

Lemma cursor_inv_recompute df :
  cursor_inv_B str_to_num df (Some (App1.recompute str_to_num df).2).
Proof.
  rewrite recompute_spec. cbn [snd cursor_inv_B App1.unlabeled_indices App1.current_pos].
  split.
  - intros i Hi. by apply elem_of_unlabeled_rows.
  - destruct (unlabeled_rows str_to_num df); simpl; [by left | right; lia].
Qed.

Lemma cursor_inv_on_unlabeled dataset ss :
  cursor_inv_B str_to_num dataset (Some ss) →
  cursor_on_unlabeled str_to_num dataset ss.
Proof.
  intros [Hlist [Hpos|Hpos]]; [by left|]. right.
  unfold App1.py_getitem. rewrite bool_decide_eq_true_2 by lia.
  destruct (lookup_lt_is_Some_2 (App1.unlabeled_indices ss)
              (Z.to_nat (App1.current_pos ss))) as [i Hi]; [lia|].
  destruct (Hlist i) as (r & Hr & Hun); [by eapply list_elem_of_lookup_2|].
  by exists i, r.
Qed.

Lemma cursor_inv_navigate dataset ss ui pos rerun :
  cursor_inv_B str_to_num dataset (Some ss) →
  App1.current_pos ss ≠ (-1)%Z →
  App1.navigate ss ui = (pos, rerun) →
  cursor_inv_B str_to_num dataset
    (Some (App1.mkSession (App1.unlabeled_indices ss) pos)).
Proof.
  intros [Hlist Hpos] Hsentinel Hnav. split; [done|]. simpl.
  right. destruct Hpos as [Hpos|Hpos]; [done|].
  unfold App1.navigate in Hnav.
  destruct (App1.previous ui && _) eqn:Hprev.
  - injection Hnav as <- _.
    apply andb_prop in Hprev as [_ Hprev%bool_decide_eq_true]. lia.
  - destruct (App1.next ui && _) eqn:Hnext.
    + injection Hnav as <- _.
      apply andb_prop in Hnext as [_ Hnext%bool_decide_eq_true]. lia.
    + injection Hnav as <- _. lia.
Qed.

End Cursor_B.

Lemma reload_apply_form df i ui :
  "Index" ∈ columns df → "Image_Name" ∈ columns df → "Label_Flag" ∈ columns df →
  App1.load_data false (App1.apply_form df i ui) = inl (App1.apply_form df i ui).
Proof.
  intros Hindex Hname Hflag. unfold App1.load_data, App1.required_columns.
  cbn [forallb]. unfold App1.apply_form.
  rewrite !bool_decide_eq_true_2 by (by repeat apply at_set_columns). done.
Qed.

Lemma started_is_consistent :
  cursor_inv_B digits_only (App1.remote sample_remote) started.
Proof.
  split.
  - intros i Hi. simpl in Hi.
    repeat (apply elem_of_cons in Hi as [->|Hi]);
      [| | |by apply elem_of_nil in Hi]; eexists; split; reflexivity.
  - right. simpl. lia.
Qed.

(** C6, as stated, fails in variant B: when the commit of a save succeeds
    and the reload that follows it fails, the script stops before the list
    is recomputed.  The session still points at row 0, which the store now
    holds as labeled. *)
Lemma reload_failure_strands_cursor :
  cursor_inv_B digits_only (App1.remote sample_remote) started ∧
  App1.state (App1.script digits_only sample_remote reload_fault started save_press_B)
    = started ∧
  App1.ended (App1.script digits_only sample_remote reload_fault started save_press_B)
    = Stopped ∧
  cell (App1.store
          (App1.script digits_only sample_remote reload_fault started save_press_B))
       0 "Label_Flag" = Some (VNum 1) ∧
  ¬ cursor_on_unlabeled digits_only
      (App1.store
         (App1.script digits_only sample_remote reload_fault started save_press_B))
      (App1.mkSession [0; 1; 2] 0).
Proof.
  split_and!; [exact started_is_consistent | reflexivity | reflexivity | reflexivity |].
  intros [Hpos|(i & r & Hget & Hr & Hun)]; [discriminate|].
  vm_compute in Hget. injection Hget as <-.
  vm_compute in Hr. injection Hr as <-.
  vm_compute in Hun. discriminate.
Qed.

(** C6, amended.  Every execution preserves the cursor invariant over the
    state that persists: in variant A the index is a row position of the
    file or its length; in variant B every listed index and the row under
    the position are unlabeled rows of the store, or the position is -1 --
    except for a save or drop of variant B whose commit succeeds and whose
    reload fails. *)
Theorem cursor_invariant_preserved
    (wA : Apl.world) (stA : option nat) (uiA : Apl.widgets)
    (str_to_num : string → option Qc)
    (wB : App1.world) (f : App1.faults) (stB : option App1.session)
    (uiB : App1.widgets) :
  (cursor_inv_A (Apl.csv_file wA) stA →
   cursor_inv_A (Apl.disk (Apl.script wA stA uiA))
                (Apl.current_index (Apl.script wA stA uiA))) ∧
  (cursor_inv_B str_to_num (App1.remote wB) stB →
   App1.commit_fails f || negb (App1.refetch_fails f) = true →
   cursor_inv_B str_to_num (App1.store (App1.script str_to_num wB f stB uiB))
                (App1.state (App1.script str_to_num wB f stB uiB)) ∧
   ∀ ss, App1.state (App1.script str_to_num wB f stB uiB) = Some ss →
         cursor_on_unlabeled str_to_num
           (App1.store (App1.script str_to_num wB f stB uiB)) ss).
Proof.
  split.
  - intros Hinv. unfold Apl.script, Apl.to_csv.
    destruct (Apl.csv_file wA) as [df|] eqn:Hfile; [|done].
    assert (default 0 stA ≤ len df) as Hstart.
    { destruct stA; simpl in *; [done | lia]. }
    destruct (Apl.scan df (default 0 stA)) as [i|i] eqn:Hscan.
    + apply (scan_within _ _ _ Hstart) in Hscan as [_ Hle].
      case_bool_decide as Hend; [done|].
      assert (i < len df) as Hlt by lia.
      pose proof (navigate_lt (len df) uiA i Hlt) as Hnav.
      destruct (iloc df i) as [r|]; [|done].
      destruct (r !! "Image_Name") as [[| | |name]|]; try done.
      destruct (Apl.image_exists wA _); [|done].
      destruct (r !! "Index"); [|done].
      destruct (Apl.drop_checkbox uiA).
      * rewrite drop_row_len.
        destruct (Apl.disk_writable wA); simpl; rewrite ?drop_row_len; lia.
      * destruct (Apl.save_changes uiA).
        -- rewrite save_row_len.
           destruct (Apl.disk_writable wA); simpl; rewrite ?save_row_len; lia.
        -- simpl. lia.
    + apply scan_raise_within in Hscan. simpl. lia.
  - intros Hinv Hfaults.
    assert (cursor_inv_B str_to_num
              (App1.store (App1.script str_to_num wB f stB uiB))
              (App1.state (App1.script str_to_num wB f stB uiB))) as Hafter.
    2: { split; [done|]. intros ss Hss. rewrite Hss in Hafter.
         by apply cursor_inv_on_unlabeled. }
    unfold App1.script.
    destruct (App1.load_data _ _) as [df0|shown] eqn:Hload; [|done].
    apply load_data_inl in Hload as (-> & _ & Hindex & Hname & Hflag).
    assert (∃ df ss, (match stB with
                      | Some ss => (App1.remote wB, ss)
                      | None => App1.recompute str_to_num (App1.remote wB)
                      end) = (df, ss) ∧
                     columns df = columns (App1.remote wB) ∧
                     cursor_inv_B str_to_num (App1.remote wB) (Some ss))
      as (df & ss & -> & Hcols & Hss).
    { destruct stB as [ss|].
      - by exists (App1.remote wB), ss.
      - pose proof (cursor_inv_recompute str_to_num (App1.remote wB)) as Hre.
        destruct (App1.recompute str_to_num (App1.remote wB)) as [df ss] eqn:Hrec.
        exists df, ss. split_and!; [done | | done].
        unfold App1.recompute in Hrec. by injection Hrec as <- _. }
    destruct (App1.reset uiB); [done|].
    destruct (App1.get_current_image wB df ss) as [shown|i r name|] eqn:Himage;
      [done | | done].
    destruct (App1.form_submit uiB || App1.drop_submit uiB).
    + unfold App1.submit. rewrite (verify_displayed _ _ _ _ _ _ Himage). cbn [negb].
      unfold App1.update_system.
      destruct (App1.commit_fails f); [done|]. simpl in Hfaults.
      apply negb_true_iff in Hfaults. rewrite Hfaults.
      rewrite reload_apply_form by (by rewrite Hcols).
      rewrite df_update_self.
      pose proof (cursor_inv_recompute str_to_num (App1.apply_form df i uiB)) as Hre.
      by destruct (App1.recompute str_to_num (App1.apply_form df i uiB)).
    + destruct (App1.navigate ss uiB) as [pos rerun] eqn:Hnav.
      apply get_current_image_Image in Himage as (Hsentinel & _).
      by eapply cursor_inv_navigate.
Qed.

Lemma cursor_invariant_preserved_witness :
  cursor_inv_A (Apl.disk (Apl.script sample_disk (Some 0) save_press_A))
               (Apl.current_index (Apl.script sample_disk (Some 0) save_press_A)) ∧
  cursor_inv_B digits_only
    (App1.store (App1.script digits_only sample_remote App1.no_faults started save_press_B))
    (App1.state (App1.script digits_only sample_remote App1.no_faults started save_press_B)).
Proof.
  destruct (cursor_invariant_preserved sample_disk (Some 0) save_press_A
              digits_only sample_remote App1.no_faults started save_press_B)
    as [HA HB].
  split.
  - apply HA. vm_compute. lia.
  - apply HB; [exact started_is_consistent | reflexivity].
Defined.

(** * Further properties of the two scripts *)

(** ** Cells the handlers leave alone *)

Lemma cell_at_set_kept df i c' v' j c v :
  cell df j c = Some v → j ≠ i ∨ c ≠ c' →
  cell (at_set df i c' v') j c = Some v.
Proof.
  unfold cell, at_set; simpl. rewrite list_lookup_imap.
  destruct (rows df !! j) as [r|]; simpl; [|done].
  intros Hc Hother. case_bool_decide as Hj.
  - destruct Hother as [?|Hcc]; [done|]. by rewrite lookup_insert_ne.
  - destruct (r !! c') eqn:Hc'; [done|].
    rewrite lookup_insert_ne; [done|]. intros <-. congruence.
Qed.

Ltac kept_cell H :=
  repeat (apply cell_at_set_kept;
          [| destruct H as [H|H]; [by left | right];
             repeat (apply not_elem_of_cons in H as [? H]); done]);
  done.

Lemma save_row_kept df i ui j c v :
  cell df j c = Some v → j ≠ i ∨ c ∉ annotation_columns →
  cell (Apl.save_row df i ui) j c = Some v.
Proof. intros Hc Hother. unfold Apl.save_row, annotation_columns in *. kept_cell Hother. Qed.

Lemma drop_row_kept df i ui j c v :
  cell df j c = Some v → j ≠ i ∨ c ∉ annotation_columns →
  cell (Apl.drop_row df i ui) j c = Some v.
Proof. intros Hc Hother. unfold Apl.drop_row, annotation_columns in *. kept_cell Hother. Qed.

Lemma apply_form_kept df i ui j c v :
  cell df j c = Some v → j ≠ i ∨ c ∉ annotation_columns →
  cell (App1.apply_form df i ui) j c = Some v.
Proof. intros Hc Hother. unfold App1.apply_form, annotation_columns in *. kept_cell Hother. Qed.

(** What an execution of variant A can leave on the disk. *)
Lemma apl_disk_cases w st ui df :
  Apl.csv_file w = Some df →
  Apl.disk (Apl.script w st ui) = Some df ∨
  ∃ i r, cursor_A w st = Some (i, r) ∧ rows df !! i = Some r ∧
         Apl.notices (Apl.script w st ui) = [Saved] ∧
         ((Apl.drop_checkbox ui = true ∧
           Apl.disk (Apl.script w st ui) = Some (Apl.drop_row df i ui)) ∨
          (Apl.drop_checkbox ui = false ∧ Apl.save_changes ui = true ∧
           Apl.disk (Apl.script w st ui) = Some (Apl.save_row df i ui))).
Proof.
  intros Hfile. unfold cursor_A, Apl.script, Apl.to_csv. rewrite Hfile.
  destruct (Apl.scan df (default 0 st)) as [i|i]; [|by left].
  case_bool_decide; [by left|].
  unfold iloc. destruct (rows df !! i) as [r|] eqn:Hrow; [|by left].
  destruct (r !! "Image_Name") as [[| | |name]|]; try by left.
  destruct (Apl.image_exists w _); [|by left].
  destruct (r !! "Index"); [|by left].
  destruct (Apl.drop_checkbox ui).
  - destruct (Apl.disk_writable w); [|by left].
    right. exists i, r. split_and!; [done | done | done |]. by left.
  - destruct (Apl.save_changes ui); [|by left].
    destruct (Apl.disk_writable w); [|by left].
    right. exists i, r. split_and!; [done | done | done |]. by right.
Qed.

Lemma apply_form_len df i ui : len (App1.apply_form df i ui) = len df.
Proof. unfold App1.apply_form. by rewrite !at_set_len. Qed.

Section Store_B.

Variable str_to_num : string → option Qc.

(** What an execution of variant B can leave in the store. *)
Lemma app1_store_cases w f st ui :
  App1.store (App1.script str_to_num w f st ui) = App1.remote w ∨
  ∃ df ss i r name,
    (df, ss) = match st with
               | Some ss => (App1.remote w, ss)
               | None => App1.recompute str_to_num (App1.remote w)
               end ∧
    App1.get_current_image w df ss = App1.Image i r name ∧
    cursor_B str_to_num w f st = Some (i, r) ∧
    App1.store (App1.script str_to_num w f st ui) = App1.apply_form df i ui.
Proof.
  unfold cursor_B, App1.script.
  destruct (App1.load_data _ _) as [df0|shown] eqn:Hload; [|by left].
  apply load_data_inl in Hload as (-> & _).
  destruct (match st with
            | Some ss => (App1.remote w, ss)
            | None => App1.recompute str_to_num (App1.remote w)
            end) as [df ss] eqn:Hstart.
  destruct (App1.reset ui); [by left|].
  destruct (App1.get_current_image w df ss) as [shown|i r name|] eqn:Himage;
    [by left | | by left].
  destruct (App1.form_submit ui || App1.drop_submit ui).
  - unfold App1.submit. rewrite (verify_displayed _ _ _ _ _ _ Himage).
    cbn [negb]. unfold App1.update_system.
    destruct (App1.commit_fails f); [by left|].
    right. exists df, ss, i, r, name. split_and!; [done | done | done |].
    destruct (App1.load_data _ _); [|done].
    by destruct (App1.recompute _ _).
  - destruct (App1.navigate ss ui). by left.
Qed.

End Store_B.

(** X1.  An execution of variant A keeps the number of rows of the file,
    and the only cells of the file whose value it can change are those of
    the five annotation columns in the row under the cursor. *)
Theorem only_the_cursor_row_is_written_A (w : Apl.world) (st : option nat)
    (ui : Apl.widgets) (df df' : DataFrame) :
  Apl.csv_file w = Some df →
  Apl.disk (Apl.script w st ui) = Some df' →
  len df' = len df ∧
  ∀ j c v, cell df j c = Some v →
    cell df' j c = Some v ∨
    ∃ r, cursor_A w st = Some (j, r) ∧ c ∈ annotation_columns.
Proof.
  intros Hfile Hdisk.
  destruct (apl_disk_cases w st ui df Hfile)
    as [Hsame|(i & r & Hcur & _ & _ & [[_ Hdrop]|(_ & _ & Hsave)])].
  - assert (df' = df) as -> by congruence. split; [done|]. by left.
  - assert (df' = Apl.drop_row df i ui) as -> by congruence.
    split; [apply drop_row_len|]. intros j c v Hc.
    destruct (decide (j = i)) as [->|Hj];
      [destruct (decide (c ∈ annotation_columns)) as [Hin|Hout]|].
    + right. by exists r.
    + left. apply drop_row_kept; [done | by right].
    + left. apply drop_row_kept; [done | by left].
  - assert (df' = Apl.save_row df i ui) as -> by congruence.
    split; [apply save_row_len|]. intros j c v Hc.
    destruct (decide (j = i)) as [->|Hj];
      [destruct (decide (c ∈ annotation_columns)) as [Hin|Hout]|].
    + right. by exists r.
    + left. apply save_row_kept; [done | by right].
    + left. apply save_row_kept; [done | by left].
Qed.

Lemma only_the_cursor_row_is_written_A_witness :
  len (Apl.save_row sample 1 save_press_A) = len sample ∧
  ∀ j c v, cell sample j c = Some v →
    cell (Apl.save_row sample 1 save_press_A) j c = Some v ∨
    ∃ r, cursor_A sample_disk (Some 0) = Some (j, r) ∧ c ∈ annotation_columns.
Proof.
  apply (only_the_cursor_row_is_written_A sample_disk (Some 0) save_press_A);
    reflexivity.
Defined.

(** X2.  An execution of variant B in an initialised session keeps the
    number of rows of the store, and the only cells of the store whose value
    it can change are those of the five annotation columns in the row on
    display. *)
Theorem only_the_cursor_row_is_written_B (str_to_num : string → option Qc)
    (w : App1.world) (f : App1.faults) (ss : App1.session) (ui : App1.widgets) :
  len (App1.store (App1.script str_to_num w f (Some ss) ui)) = len (App1.remote w) ∧
  ∀ j c v, cell (App1.remote w) j c = Some v →
    cell (App1.store (App1.script str_to_num w f (Some ss) ui)) j c = Some v ∨
    ∃ r, cursor_B str_to_num w f (Some ss) = Some (j, r) ∧ c ∈ annotation_columns.
Proof.
  destruct (app1_store_cases str_to_num w f (Some ss) ui)
    as [->|(df & ss0 & i & r & name & [= -> ->] & _ & Hcur & ->)].
  - split; [done|]. by left.
  - split; [apply apply_form_len|]. intros j c v Hc.
    destruct (decide (j = i)) as [->|Hj];
      [destruct (decide (c ∈ annotation_columns)) as [Hin|Hout]|].
    + right. by exists r.
    + left. apply apply_form_kept; [done | by right].
    + left. apply apply_form_kept; [done | by left].
Qed.

(** ** Labeled rows stay labeled *)

Lemma cell_Some df j c v :
  cell df j c = Some v ↔ ∃ r, rows df !! j = Some r ∧ r !! c = Some v.
Proof.
  unfold cell. destruct (rows df !! j) as [r|]; simpl.
  - split; [by exists r | by intros (? & [= <-] & ?)].
  - split; [done | by intros (? & ? & ?)].
Qed.

Lemma labels_monotone_A_trans df1 df2 df3 :
  labels_monotone_A df1 df2 → labels_monotone_A df2 df3 → labels_monotone_A df1 df3.
Proof.
  intros [Hlen12 H12] [Hlen23 H23]. split; [congruence|].
  intros j r Hr Hlab. destruct (H12 j r Hr Hlab) as (r2 & Hr2 & Hlab2).
  by apply (H23 j r2).
Qed.

Lemma labeled_A_one (r : Row) : r !! "Label_Flag" = Some (VNum 1) → labeled_A r.
Proof. intros Hr. by exists (VNum 1). Qed.

Lemma apl_step_monotone w st ui df :
  Apl.csv_file w = Some df →
  ∃ df', Apl.disk (Apl.script w st ui) = Some df' ∧ labels_monotone_A df df'.
Proof.
  intros Hfile.
  destruct (apl_disk_cases w st ui df Hfile)
    as [Hsame|(i & r & _ & Hr & _ & [[Hpressed Hdrop]|(_ & _ & Hsave)])].
  - exists df. split; [done|]. split; [done|]. intros j r0 Hr0 Hlab. by exists r0.
  - exists (Apl.drop_row df i ui). split; [done|]. split; [apply drop_row_len|].
    intros j r0 Hr0 (v & Hv & Hone).
    destruct (decide (j = i)) as [->|Hj].
    + destruct (drop_row_dropped df i ui r Hpressed Hr) as (r' & Hr' & _ & Hflag & _).
      exists r'. split; [done|]. by apply labeled_A_one.
    + assert (cell (Apl.drop_row df i ui) j "Label_Flag" = Some v) as Hcell.
      { apply drop_row_kept; [|by left]. apply cell_Some. by exists r0. }
      apply cell_Some in Hcell as (r' & Hr' & Hv'). exists r'. split; [done|].
      by exists v.
  - exists (Apl.save_row df i ui). split; [done|]. split; [apply save_row_len|].
    intros j r0 Hr0 (v & Hv & Hone).
    destruct (decide (j = i)) as [->|Hj].
    + destruct (save_row_written df i ui r Hr) as (r' & Hr' & _ & Hflag & _).
      exists r'. split; [done|]. by apply labeled_A_one.
    + assert (cell (Apl.save_row df i ui) j "Label_Flag" = Some v) as Hcell.
      { apply save_row_kept; [|by left]. apply cell_Some. by exists r0. }
      apply cell_Some in Hcell as (r' & Hr' & Hv'). exists r'. split; [done|].
      by exists v.
Qed.

(** X3.  Over a whole session of variant A -- any sequence of button
    presses, with the disk writable or not -- the file keeps its number of
    rows and a row whose [Label_Flag] equals 1 never loses that mark. *)
Theorem labeled_rows_stay_labeled_A (steps : list (Apl.widgets * bool))
    (w : Apl.world) (st : option nat) (df : DataFrame) :
  Apl.csv_file w = Some df →
  ∃ df', (Apl.session_run w st steps).1 = Some df' ∧ labels_monotone_A df df'.
Proof.
  revert w st df. induction steps as [|[ui writable] steps IH]; intros w st df Hfile.
  - exists df. split; [done|]. split; [done|]. intros j r Hr Hlab. by exists r.
  - cbn [Apl.session_run].
    destruct (apl_step_monotone (Apl.after w writable (Apl.csv_file w)) st ui df Hfile)
      as (df1 & Hdisk & Hmono1).
    destruct (IH (Apl.after w writable
                    (Apl.disk (Apl.script (Apl.after w writable (Apl.csv_file w)) st ui)))
                 (Apl.current_index
                    (Apl.script (Apl.after w writable (Apl.csv_file w)) st ui))
                 df1 Hdisk) as (df' & Hrun & Hmono).
    exists df'. split; [done|]. by eapply labels_monotone_A_trans.
Qed.

Lemma labeled_rows_stay_labeled_A_witness :
  ∃ df', (Apl.session_run sample_disk (Some 0)
            [(save_press_A, true); (next_press_A, false); (drop_press_A, true)]).1
         = Some df' ∧
         labels_monotone_A sample df'.
Proof.
  apply (labeled_rows_stay_labeled_A
           [(save_press_A, true); (next_press_A, false); (drop_press_A, true)]
           sample_disk (Some 0) sample).
  reflexivity.
Defined.

Lemma at_set_other_flag df i c v j (r : Row) :
  j ≠ i → rows df !! j = Some r →
  ∃ r', rows (at_set df i c v) !! j = Some r' ∧
        default VNaN (r' !! "Label_Flag") = default VNaN (r !! "Label_Flag").
Proof.
  intros Hj Hr. unfold at_set; simpl. rewrite list_lookup_imap, Hr; simpl.
  rewrite bool_decide_eq_false_2 by done.
  destruct (r !! c) eqn:Hc; [by exists r|].
  eexists. split; [done|].
  destruct (decide (c = "Label_Flag")) as [->|Hne].
  - by rewrite lookup_insert_eq, Hc.
  - by rewrite lookup_insert_ne.
Qed.

Lemma apply_form_other_flag df i ui j (r : Row) :
  j ≠ i → rows df !! j = Some r →
  ∃ r', rows (App1.apply_form df i ui) !! j = Some r' ∧
        default VNaN (r' !! "Label_Flag") = default VNaN (r !! "Label_Flag").
Proof.
  intros Hj Hr. unfold App1.apply_form.
  destruct (at_set_other_flag df i "Pneumothorax_Type"
              (type_cell (App1.pneumothorax_type ui)) j r Hj Hr) as (r1 & Hr1 & E1).
  destruct (at_set_other_flag _ i "Pneumothorax_Size"
              (size_cell (App1.pneumothorax_size ui)) j r1 Hj Hr1) as (r2 & Hr2 & E2).
  destruct (at_set_other_flag _ i "Affected_Side"
              (side_cell (App1.affected_side ui)) j r2 Hj Hr2) as (r3 & Hr3 & E3).
  destruct (at_set_other_flag _ i "Label_Flag" (VNum 1) j r3 Hj Hr3)
    as (r4 & Hr4 & E4).
  destruct (at_set_other_flag _ i "Drop"
              (VStr (if App1.drop_submit ui then "True" else "False")) j r4 Hj Hr4)
    as (r5 & Hr5 & E5).
  exists r5. split; [done|]. congruence.
Qed.

Section Monotone_B.

Variable str_to_num : string → option Qc.

Lemma coerced_flag_numeric (r : Row) : ∃ q, coerced_flag str_to_num r = VNum q.
Proof.
  unfold coerced_flag, App1.fillna0, App1.to_numeric.
  destruct (default VNaN (r !! "Label_Flag")) as [|q|b|s]; simpl; eauto.
  destruct (str_to_num s); simpl; eauto.
Qed.

Lemma coerced_flag_idempotent (r : Row) :
  coerced_flag str_to_num (<["Label_Flag" := coerced_flag str_to_num r]> r)
  = coerced_flag str_to_num r.
Proof.
  destruct (coerced_flag_numeric r) as [q Hq]. rewrite Hq.
  unfold coerced_flag at 1. by rewrite lookup_insert_eq.
Qed.

Lemma labels_monotone_B_trans df1 df2 df3 :
  labels_monotone_B str_to_num df1 df2 → labels_monotone_B str_to_num df2 df3 →
  labels_monotone_B str_to_num df1 df3.
Proof.
  intros [Hlen12 H12] [Hlen23 H23]. split; [congruence|].
  intros j r Hr Hlab. destruct (H12 j r Hr Hlab) as (r2 & Hr2 & Hlab2).
  by apply (H23 j r2).
Qed.

Lemma labels_monotone_B_refl df : labels_monotone_B str_to_num df df.
Proof. split; [done|]. intros j r Hr Hlab. by exists r. Qed.

Lemma labels_monotone_B_coerce df :
  labels_monotone_B str_to_num df (App1.coerce_label_flag str_to_num df).
Proof.
  split.
  - unfold len, App1.coerce_label_flag; simpl. by rewrite length_fmap.
  - intros j r Hr Hlab. eexists. split.
    + rewrite coerce_label_flag_row, Hr. done.
    + unfold unlabeled_B. by rewrite coerced_flag_idempotent.
Qed.

Lemma labels_monotone_B_apply_form df i ui r :
  rows df !! i = Some r →
  labels_monotone_B str_to_num df (App1.apply_form df i ui).
Proof.
  intros Hr. split; [apply apply_form_len|]. intros j r0 Hr0 Hlab.
  destruct (decide (j = i)) as [->|Hj].
  - destruct (apply_form_written df i ui r Hr) as (r' & Hr' & _ & Hflag & _).
    exists r'. split; [done|]. unfold unlabeled_B.
    by rewrite (coerced_flag_labeled str_to_num _ Hflag).
  - destruct (apply_form_other_flag df i ui j r0 Hj Hr0) as (r' & Hr' & Hsame).
    exists r'. split; [done|]. unfold unlabeled_B, coerced_flag in *.
    by rewrite Hsame.
Qed.

Lemma app1_step_monotone w f st ui :
  labels_monotone_B str_to_num (App1.remote w)
    (App1.store (App1.script str_to_num w f st ui)).
Proof.
  destruct (app1_store_cases str_to_num w f st ui)
    as [->|(df & ss & i & r & name & Hstart & Himage & _ & ->)].
  - apply labels_monotone_B_refl.
  - apply get_current_image_Image in Himage as (_ & _ & Hr & _).
    eapply labels_monotone_B_trans; [|by eapply labels_monotone_B_apply_form].
    destruct st as [ss0|].
    + injection Hstart as -> _. apply labels_monotone_B_refl.
    + rewrite recompute_spec in Hstart. injection Hstart as -> _.
      apply labels_monotone_B_coerce.
Qed.

End Monotone_B.

(** X4.  Over a whole session of variant B -- any sequence of button
    presses and network faults -- the store keeps its number of rows and a
    row whose coerced [Label_Flag] is not 0 never becomes unlabeled again. *)
Theorem labeled_rows_stay_labeled_B (str_to_num : string → option Qc)
    (steps : list (App1.faults * App1.widgets))
    (w : App1.world) (st : option App1.session) :
  labels_monotone_B str_to_num (App1.remote w)
    (App1.session_run str_to_num w st steps).1.
Proof.
  revert w st. induction steps as [|[f ui] steps IH]; intros w st.
  - apply labels_monotone_B_refl.
  - cbn [App1.session_run].
    eapply labels_monotone_B_trans; [apply (app1_step_monotone _ w f st ui)|].
    apply (IH (App1.mkWorld (App1.store (App1.script str_to_num w f st ui))
                            (App1.image_exists w))).
Qed.

(** ** The unlabeled list from one computation to the next *)

Section List_B.

Variable str_to_num : string → option Qc.

Lemma unlabeled_rows_coerce df :
  unlabeled_rows str_to_num (App1.coerce_label_flag str_to_num df)
  = unlabeled_rows str_to_num df.
Proof.
  unfold unlabeled_rows.
  replace (len (App1.coerce_label_flag str_to_num df)) with (len df)
    by (unfold len, App1.coerce_label_flag; simpl; by rewrite length_fmap).
  apply list_filter_iff. intros j. rewrite coerce_label_flag_row.
  destruct (rows df !! j) as [r|]; simpl; [|done].
  unfold unlabeled_B. by rewrite coerced_flag_idempotent.
Qed.

Lemma unlabeled_rows_apply_form df i ui r :
  rows df !! i = Some r →
  unlabeled_rows str_to_num (App1.apply_form df i ui)
  = filter (λ j, j ≠ i) (unlabeled_rows str_to_num df).
Proof.
  intros Hr. unfold unlabeled_rows. rewrite apply_form_len, list_filter_filter.
  apply list_filter_iff. intros j.
  destruct (decide (j = i)) as [->|Hj].
  - destruct (apply_form_written df i ui r Hr) as (r' & Hr' & _ & Hflag & _).
    rewrite Hr'; simpl. unfold unlabeled_B.
    rewrite (coerced_flag_labeled str_to_num _ Hflag), one_is_not_zero. simpl.
    split; [done | by intros [? _]].
  - destruct (rows df !! j) as [r0|] eqn:Hr0.
    + destruct (apply_form_other_flag df i ui j r0 Hj Hr0) as (r' & Hr' & Hsame).
      rewrite Hr'; simpl. unfold unlabeled_B, coerced_flag. rewrite Hsame.
      split; [done | by intros [_ ?]].
    + rewrite (lookup_ge_None_2 (rows (App1.apply_form df i ui))).
      * simpl. split; [done | by intros [_ ?]].
      * pose proof (apply_form_len df i ui) as Hlen. unfold len in Hlen.
        rewrite Hlen. by apply lookup_ge_None.
Qed.

Lemma coerce_label_flag_idempotent df :
  App1.coerce_label_flag str_to_num (App1.coerce_label_flag str_to_num df)
  = App1.coerce_label_flag str_to_num df.
Proof.
  unfold App1.coerce_label_flag; simpl. f_equal.
  rewrite <- list_fmap_compose. apply list_fmap_ext. intros j r _. simpl.
  fold (coerced_flag str_to_num r).
  fold (coerced_flag str_to_num (<["Label_Flag" := coerced_flag str_to_num r]> r)).
  by rewrite coerced_flag_idempotent, insert_insert_eq.
Qed.

End List_B.

(** X5.  A successful save or drop of variant B removes exactly the row on
    display from the unlabeled rows: the new list is the list of unlabeled
    rows of the store as it was before, without that row's index. *)
Theorem save_removes_exactly_that_row (str_to_num : string → option Qc)
    (w : App1.world) (f : App1.faults) (st : option App1.session)
    (ui : App1.widgets) :
  App1.notices (App1.script str_to_num w f st ui) = [Saved] →
  ∃ i r ss',
    cursor_B str_to_num w f st = Some (i, r) ∧
    App1.state (App1.script str_to_num w f st ui) = Some ss' ∧
    App1.unlabeled_indices ss'
      = filter (λ j, j ≠ i) (unlabeled_rows str_to_num (App1.remote w)).
Proof.
  intros Hsaved.
  destruct (app1_handler_ran str_to_num w f st ui)
    as (df & ss & i & r & name & Hstart & Himage & Hcur & _ & Hrun); [by left|].
  cbv zeta in Hrun. rewrite Hrun in Hsaved |- *.
  destruct (App1.commit_fails f); [done|].
  apply get_current_image_Image in Himage as (_ & _ & Hr & _).
  rewrite recompute_spec. cbn [snd App1.state].
  eexists i, r, _. split_and!; [done | done |].
  cbn [App1.unlabeled_indices].
  rewrite (unlabeled_rows_apply_form str_to_num df i ui r Hr).
  f_equal. destruct st as [ss0|].
  - by injection Hstart as -> _.
  - rewrite recompute_spec in Hstart. injection Hstart as -> _.
    apply unlabeled_rows_coerce.
Qed.

Lemma save_removes_exactly_that_row_witness :
  ∃ i r ss',
    cursor_B digits_only sample_remote App1.no_faults
             (Some (App1.mkSession [0; 1; 2] 1)) = Some (i, r) ∧
    App1.state (App1.script digits_only sample_remote App1.no_faults
                  (Some (App1.mkSession [0; 1; 2] 1)) drop_press_B) = Some ss' ∧
    App1.unlabeled_indices ss'
      = filter (λ j, j ≠ i) (unlabeled_rows digits_only (App1.remote sample_remote)).
Proof.
  apply (save_removes_exactly_that_row digits_only sample_remote App1.no_faults
           (Some (App1.mkSession [0; 1; 2] 1)) drop_press_B).
  vm_compute. reflexivity.
Defined.

(** X6.  The coercion of lines 39 and 139 leaves a number in the
    [Label_Flag] cell of every row, never NaN and never a string, and
    computing list and position again from the coerced frame changes
    nothing. *)
Theorem coercion_yields_numbers (str_to_num : string → option Qc) (df : DataFrame) :
  (∀ j r', rows (App1.recompute str_to_num df).1 !! j = Some r' →
           ∃ q, r' !! "Label_Flag" = Some (VNum q)) ∧
  App1.recompute str_to_num (App1.recompute str_to_num df).1
  = App1.recompute str_to_num df.
Proof.
  split.
  - intros j r'. rewrite recompute_spec. cbn [fst].
    rewrite coerce_label_flag_row. intros (r & _ & ->)%fmap_Some.
    destruct (coerced_flag_numeric str_to_num r) as [q Hq].
    exists q. by rewrite lookup_insert_eq, Hq.
  - rewrite !recompute_spec. cbn [fst].
    by rewrite coerce_label_flag_idempotent, unlabeled_rows_coerce.
Qed.

(** ** The form of variant B *)

Lemma preselected_of_labels t s d (r : Row) :
  labels_are t s d r →
  App1.preselected_type r = t ∧ App1.preselected_size r = s ∧
  App1.preselected_side r = d.
Proof.
  intros (Ht & Hs & Hd).
  unfold App1.preselected_type, App1.preselected_size, App1.preselected_side,
    App1.row_get.
  rewrite Ht, Hs, Hd. by destruct t, s, d.
Qed.

(** X7.  What variant B saves is what its form shows again: for the row as
    a successful save or drop leaves it in the store, the three select boxes
    preselect the type, size and side that were submitted. *)
Theorem form_shows_what_was_saved (str_to_num : string → option Qc)
    (w : App1.world) (f : App1.faults) (st : option App1.session)
    (ui : App1.widgets) :
  App1.notices (App1.script str_to_num w f st ui) = [Saved] →
  ∃ i r r',
    cursor_B str_to_num w f st = Some (i, r) ∧
    rows (App1.store (App1.script str_to_num w f st ui)) !! i = Some r' ∧
    App1.preselected_type r' = App1.pneumothorax_type ui ∧
    App1.preselected_size r' = App1.pneumothorax_size ui ∧
    App1.preselected_side r' = App1.affected_side ui.
Proof.
  intros Hsaved.
  destruct (app1_handler_ran str_to_num w f st ui)
    as (df & ss & i & r & name & _ & Himage & Hcur & _ & Hrun); [by left|].
  cbv zeta in Hrun. rewrite Hrun in Hsaved |- *.
  destruct (App1.commit_fails f); [done|].
  apply get_current_image_Image in Himage as (_ & _ & Hr & _).
  destruct (apply_form_written df i ui r Hr) as (r' & Hr' & Hlabels & _).
  exists i, r, r'. split; [done|]. split; [done|].
  by apply preselected_of_labels.
Qed.

Lemma form_shows_what_was_saved_witness :
  ∃ i r r',
    cursor_B digits_only sample_remote App1.no_faults started = Some (i, r) ∧
    rows (App1.store
            (App1.script digits_only sample_remote App1.no_faults started save_press_B))
      !! i = Some r' ∧
    App1.preselected_type r' = Tension ∧
    App1.preselected_size r' = Large ∧
    App1.preselected_side r' = Left.
Proof.
  apply (form_shows_what_was_saved digits_only sample_remote App1.no_faults
           started save_press_B).
  vm_compute. reflexivity.
Defined.

(** X8.  In variant B a save or drop submitted with the form untouched
    keeps the three labels of a row whose labels are options of the form
    (for instance a row saved before): the handler writes back what the
    form had preselected from the row. *)
Theorem untouched_form_keeps_valid_labels (str_to_num : string → option Qc)
    (w : App1.world) (f : App1.faults) (st : option App1.session)
    (ui : App1.widgets) (i : nat) (r : Row) :
  cursor_B str_to_num w f st = Some (i, r) →
  untouched_form r ui →
  labels_valid r →
  handler_ran (App1.notices (App1.script str_to_num w f st ui)) →
  ∃ df' r',
    App1.GT_Pneumothorax (App1.script str_to_num w f st ui) = Some df' ∧
    rows df' !! i = Some r' ∧
    labels_kept r r'.
Proof.
  intros Hcursor (Htype & Hsize & Hside) (t & s & d & Hvalid) Hran.
  destruct (app1_handler_ran str_to_num w f st ui Hran)
    as (df & ss & i0 & r0 & name & _ & Himage & Hcur & _ & Hrun).
  assert (i0 = i ∧ r0 = r) as [-> ->] by (split; congruence).
  cbv zeta in Hrun. rewrite Hrun.
  apply get_current_image_Image in Himage as (_ & _ & Hr & _).
  destruct (apply_form_written df i ui r Hr) as (r' & Hr' & Hlabels & Hflag & _).
  destruct (preselected_of_labels t s d r Hvalid) as (Et & Es & Ed).
  rewrite Htype, Hsize, Hside, Et, Es, Ed in Hlabels.
  assert (labels_kept r r') as Hkept.
  { destruct Hlabels as (? & ? & ?), Hvalid as (? & ? & ?).
    unfold labels_kept. split_and!; congruence. }
  destruct (App1.commit_fails f).
  - by exists (App1.apply_form df i ui), r'.
  - exists (App1.coerce_label_flag str_to_num (App1.apply_form df i ui)), r'.
    split_and!; [done | | done].
    by apply coerce_label_flag_labeled_row.
Qed.

Lemma untouched_form_keeps_valid_labels_witness :
  ∃ r df' r',
    rows prelabeled !! 0 = Some r ∧
    App1.GT_Pneumothorax
      (App1.script digits_only (App1.mkWorld prelabeled every_image) App1.no_faults
         (Some (App1.mkSession [0] 0)) drop_untouched_B) = Some df' ∧
    rows df' !! 0 = Some r' ∧
    labels_kept r r'.
Proof.
  eexists. 
  destruct (untouched_form_keeps_valid_labels digits_only
              (App1.mkWorld prelabeled every_image) App1.no_faults
              (Some (App1.mkSession [0] 0)) drop_untouched_B 0
              (<["Pneumothorax_Type" := VStr "Simple"]>
                 (<["Pneumothorax_Size" := VStr "Large"]>
                   (<["Affected_Side" := VStr "Left"]>
                     (sample_row 0 "a.png" (VNum 0))))))
    as (df' & r' & Hmem & Hrow & Hkept).
  - reflexivity.
  - by repeat split.
  - exists Simple, Large, Left. by repeat split.
  - left. reflexivity.
  - exists df', r'. split; [reflexivity|]. done.
Defined.

(** ** Reset, and tables that cannot be used *)

Section Fresh_B.

Variable str_to_num : string → option Qc.

Lemma app1_fresh_idle w f df0 :
  App1.load_data (App1.fetch_fails f) (App1.remote w) = inl df0 →
  App1.state (App1.script str_to_num w f None App1.idle)
    = Some (App1.recompute str_to_num df0).2 ∧
  App1.store (App1.script str_to_num w f None App1.idle) = App1.remote w.
Proof.
  intros Hload. unfold App1.script. rewrite Hload.
  destruct (App1.recompute str_to_num df0) as [df ss]. cbn [snd App1.idle App1.reset].
  destruct (App1.get_current_image w df ss); cbn; try done.
  unfold App1.navigate; cbn. by rewrite session_eta.
Qed.

Lemma app1_reset w f st ui df0 :
  App1.load_data (App1.fetch_fails f) (App1.remote w) = inl df0 →
  App1.reset ui = true →
  App1.state (App1.script str_to_num w f st ui) = None ∧
  App1.store (App1.script str_to_num w f st ui) = App1.remote w ∧
  App1.ended (App1.script str_to_num w f st ui) = Rerun.
Proof.
  intros Hload Hreset. unfold App1.script. rewrite Hload.
  destruct (match st with Some _ => _ | None => _ end). by rewrite Hreset.
Qed.

Lemma load_data_missing fails content c :
  c ∈ App1.required_columns → c ∉ columns content →
  ∃ shown, App1.load_data fails content = inr shown.
Proof.
  intros Hrequired Hmissing. unfold App1.load_data.
  destruct fails; [by eexists|].
  assert (forallb (λ col, bool_decide (col ∈ columns content)) App1.required_columns
          = false) as ->; [|by eexists].
  unfold App1.required_columns in *. cbn [forallb].
  repeat (apply elem_of_cons in Hrequired as [->|Hrequired]);
    [| | |by apply elem_of_nil in Hrequired];
    rewrite (bool_decide_eq_false_2 _ Hmissing);
    by rewrite ?andb_false_r.
Qed.

End Fresh_B.

(** X9.  "Reset App State" followed by the rerun it triggers starts the
    session over from the store: whatever the session state was, the list
    is the list of unlabeled rows of the store, the position is 0 (-1 for
    an empty list) and the store is untouched. *)
Theorem reset_restarts_from_the_store (str_to_num : string → option Qc)
    (w : App1.world) (f1 f2 : App1.faults) (st : option App1.session)
    (ui : App1.widgets) :
  App1.reset ui = true →
  App1.load_data false (App1.remote w) = inl (App1.remote w) →
  App1.fetch_fails f1 = false → App1.fetch_fails f2 = false →
  App1.session_run str_to_num w st [(f1, ui); (f2, App1.idle)]
  = (App1.remote w,
     Some (App1.mkSession (unlabeled_rows str_to_num (App1.remote w))
             (start_pos (unlabeled_rows str_to_num (App1.remote w))))).
Proof.
  intros Hreset Hload Hf1 Hf2. cbn [App1.session_run].
  destruct (app1_reset str_to_num w f1 st ui (App1.remote w)) as (-> & -> & _);
    [by rewrite Hf1 | done |].
  destruct (app1_fresh_idle str_to_num
              (App1.mkWorld (App1.remote w) (App1.image_exists w)) f2 (App1.remote w))
    as (-> & ->); [by rewrite Hf2|].
  by rewrite recompute_spec.
Qed.

Lemma reset_restarts_from_the_store_witness :
  App1.session_run digits_only sample_remote
    (Some (App1.mkSession [2] 0)) [(App1.no_faults, reset_press_B);
                                   (App1.no_faults, App1.idle)]
  = (App1.remote sample_remote,
     Some (App1.mkSession (unlabeled_rows digits_only (App1.remote sample_remote))
             (start_pos (unlabeled_rows digits_only (App1.remote sample_remote))))).
Proof.
  apply (reset_restarts_from_the_store digits_only sample_remote
           App1.no_faults App1.no_faults (Some (App1.mkSession [2] 0)) reset_press_B);
    reflexivity.
Defined.

(** X10.  A store that lacks one of the columns [Index], [Image_Name],
    [Label_Flag] is never written and never starts a session: whatever the
    buttons and faults of its executions, a whole session leaves store and
    session state as they were. *)
Theorem missing_column_blocks_the_session (str_to_num : string → option Qc)
    (steps : list (App1.faults * App1.widgets)) (w : App1.world)
    (st : option App1.session) (c : string) :
  c ∈ App1.required_columns → c ∉ columns (App1.remote w) →
  App1.session_run str_to_num w st steps = (App1.remote w, st).
Proof.
  intros Hrequired. revert w.
  induction steps as [|[f ui] steps IH]; intros w Hmissing; [done|].
  cbn [App1.session_run].
  destruct (load_data_missing (App1.fetch_fails f) (App1.remote w) c Hrequired Hmissing)
    as [shown Hload].
  unfold App1.script at 1 2. rewrite Hload. cbn [App1.store App1.state].
  by rewrite IH.
Qed.

Lemma missing_column_blocks_the_session_witness :
  App1.session_run digits_only (App1.mkWorld nameless every_image) None
    [(App1.no_faults, App1.idle); (App1.no_faults, save_press_B)]
  = (nameless, None).
Proof.
  apply (missing_column_blocks_the_session digits_only
           [(App1.no_faults, App1.idle); (App1.no_faults, save_press_B)]
           (App1.mkWorld nameless every_image) None "Image_Name").
  - unfold App1.required_columns. rewrite !elem_of_cons. auto.
  - simpl. rewrite !elem_of_cons. intros [H|[H|H]]; try discriminate.
    by apply elem_of_nil in H.
Defined.

(** ** Variant A: the cursor from one execution to the next *)

Lemma scan_fixed_inl df s i : Apl.scan df s = inl i → Apl.scan df i = inl i.
Proof.
  intros Hscan. destruct (decide (i < len df)) as [Hlt|Hge].
  - unfold Apl.scan in Hscan.
    apply skip_labeled_inl in Hscan as (Hle & _ & Hstop).
    rewrite length_drop in Hle, Hstop.
    destruct Hstop as (r & Hr & v & Hv & Hnot); [unfold len in *; lia|].
    rewrite lookup_drop in Hr. replace (s + (i - s)) with i in Hr by lia.
    unfold Apl.scan. rewrite (drop_S _ _ _ Hr). simpl. by rewrite Hv, Hnot.
  - apply scan_beyond_table. lia.
Qed.

Lemma scan_fixed_inr df s i : Apl.scan df s = inr i → Apl.scan df i = inr i.
Proof.
  intros Hscan. unfold Apl.scan in Hscan.
  apply skip_labeled_inr in Hscan as (r & Hr & Hle & Hnone).
  rewrite lookup_drop in Hr. replace (s + (i - s)) with i in Hr by lia.
  unfold Apl.scan. rewrite (drop_S _ _ _ Hr). simpl. by rewrite Hnone.
Qed.

Lemma skip_labeled_all rest i :
  (∀ k r, rest !! k = Some r → labeled_A r) →
  Apl.skip_labeled rest i = inl (i + length rest).
Proof.
  revert i. induction rest as [|row rest IH]; intros i Hall; simpl.
  - f_equal. lia.
  - destruct (Hall 0 row eq_refl) as (v & -> & ->).
    rewrite IH; [f_equal; lia|]. intros k r Hr. by apply (Hall (S k)).
Qed.

Lemma scan_all_labeled df s :
  s ≤ len df →
  (∀ j r, s ≤ j → rows df !! j = Some r → labeled_A r) →
  Apl.scan df s = inl (len df).
Proof.
  intros Hs Hall. unfold Apl.scan. rewrite skip_labeled_all.
  - rewrite length_drop. unfold len in *. f_equal. lia.
  - intros k r Hr. rewrite lookup_drop in Hr. apply (Hall (s + k)); [lia | done].
Qed.

Lemma skip_labeled_ext rest rest' i :
  (λ r : Row, r !! "Label_Flag") <$> rest = (λ r : Row, r !! "Label_Flag") <$> rest' →
  Apl.skip_labeled rest i = Apl.skip_labeled rest' i.
Proof.
  revert rest' i. induction rest as [|row rest IH]; intros [|row' rest'] i Hsame;
    try done.
  injection Hsame as Hflag Hrest. simpl. rewrite Hflag.
  destruct (row' !! "Label_Flag") as [v|]; [|done].
  destruct (eq_int v 1); [|done]. by apply IH.
Qed.

Lemma scan_after_labeling df df' i (r' : Row) :
  has_label_flag df →
  len df' = len df →
  rows df' !! i = Some r' → r' !! "Label_Flag" = Some (VNum 1) →
  (∀ j v, j ≠ i → cell df j "Label_Flag" = Some v → cell df' j "Label_Flag" = Some v) →
  Apl.scan df' i = Apl.scan df (S i).
Proof.
  intros Hflag Hlen Hr' Hone Hkept. unfold Apl.scan.
  rewrite (drop_S _ _ _ Hr'). simpl. rewrite Hone. simpl.
  apply skip_labeled_ext. apply list_eq. intros k.
  rewrite !list_lookup_fmap, !lookup_drop.
  assert (S i + k ≠ i) as Hj by lia. revert Hj. generalize (S i + k). intros j Hj.
  destruct (rows df !! j) as [r0|] eqn:Hr0; simpl.
  - destruct (Hflag r0) as [v Hv]; [by eapply list_elem_of_lookup_2|].
    assert (cell df' j "Label_Flag" = Some v) as Hcell.
    { apply Hkept; [done|]. apply cell_Some. by exists r0. }
    apply cell_Some in Hcell as (r1 & -> & Hv1). simpl. congruence.
  - rewrite (lookup_ge_None_2 (rows df')); [done|].
    apply lookup_ge_None in Hr0. unfold len in Hlen. lia.
Qed.

(** X11.  In variant A a successful save or drop makes the cursor move on:
    started again at the saved row, the forward scan of the file just
    written ends where the scan of the old file ends when started one row
    further. *)
Theorem saved_row_is_skipped (w : Apl.world) (st : option nat) (ui : Apl.widgets)
    (df : DataFrame) :
  Apl.csv_file w = Some df →
  has_label_flag df →
  Apl.notices (Apl.script w st ui) = [Saved] →
  ∃ i r df',
    cursor_A w st = Some (i, r) ∧
    Apl.disk (Apl.script w st ui) = Some df' ∧
    Apl.scan df' i = Apl.scan df (S i).
Proof.
  intros Hfile Hflag Hsaved.
  destruct (apl_handler_ran w st ui)
    as (df0 & i & r & Hfile0 & Hcur & Hr & _ & Hrun); [by left|].
  assert (df0 = df) as -> by congruence.
  cbv zeta in Hrun. rewrite Hrun in Hsaved |- *.
  destruct (Apl.disk_writable w); [|done].
  destruct (Apl.drop_checkbox ui) eqn:Hpressed.
  - destruct (drop_row_dropped df i ui r Hpressed Hr) as (r' & Hr' & _ & Hone & _).
    exists i, r, (Apl.drop_row df i ui). split_and!; [done | done |].
    apply (scan_after_labeling df _ i r' Hflag (drop_row_len df i ui) Hr' Hone).
    intros j v Hj Hv. apply drop_row_kept; [done | by left].
  - destruct (save_row_written df i ui r Hr) as (r' & Hr' & _ & Hone & _).
    exists i, r, (Apl.save_row df i ui). split_and!; [done | done |].
    apply (scan_after_labeling df _ i r' Hflag (save_row_len df i ui) Hr' Hone).
    intros j v Hj Hv. apply save_row_kept; [done | by left].
Qed.

Lemma saved_row_is_skipped_witness :
  ∃ i r df',
    cursor_A sample_disk (Some 0) = Some (i, r) ∧
    Apl.disk (Apl.script sample_disk (Some 0) save_press_A) = Some df' ∧
    Apl.scan df' i = Apl.scan sample (S i).
Proof.
  apply (saved_row_is_skipped sample_disk (Some 0) save_press_A sample).
  - reflexivity.
  - exact sample_has_label_flag.
  - reflexivity.
Defined.

Lemma apl_script_scan_ext w st st' ui df :
  Apl.csv_file w = Some df →
  Apl.scan df (default 0 st) = Apl.scan df (default 0 st') →
  Apl.script w st ui = Apl.script w st' ui.
Proof. intros Hfile Hscan. unfold Apl.script. by rewrite Hfile, Hscan. Qed.

Lemma apl_idle_index w st df :
  Apl.csv_file w = Some df →
  ∃ i, Apl.current_index (Apl.script w st Apl.idle) = Some i ∧
       (Apl.scan df (default 0 st) = inl i ∨ Apl.scan df (default 0 st) = inr i).
Proof.
  intros Hfile. unfold Apl.script. rewrite Hfile.
  destruct (Apl.scan df (default 0 st)) as [i|i]; [|by exists i; auto].
  exists i. split; [|by left].
  repeat case_match; done.
Qed.

(** X12.  Running variant A again without any input changes nothing: a
    second execution with no button pressed ends exactly as the first one
    did, with the index where the first one left it. *)
Theorem idle_execution_is_idempotent (w : Apl.world) (st : option nat) :
  Apl.script w (Apl.current_index (Apl.script w st Apl.idle)) Apl.idle
  = Apl.script w st Apl.idle.
Proof.
  destruct (Apl.csv_file w) as [df|] eqn:Hfile.
  - destruct (apl_idle_index w st df Hfile) as (i & -> & Hscan).
    apply (apl_script_scan_ext _ _ _ _ df Hfile). simpl.
    destruct Hscan as [Hscan|Hscan]; rewrite Hscan.
    + by eapply scan_fixed_inl.
    + by eapply scan_fixed_inr.
  - unfold Apl.script. by rewrite Hfile.
Qed.

(** The world of an execution within a session shares the images. *)
Lemma apl_all_labeled w st ui df :
  Apl.csv_file w = Some df →
  default 0 st ≤ len df →
  (∀ j r, default 0 st ≤ j → rows df !! j = Some r → labeled_A r) →
  Apl.script w st ui
  = Apl.mkOutcome (Some (len df)) (Some df) (Some df) [AllLabeled] Stopped.
Proof.
  intros Hfile Hstart Hall. unfold Apl.script. rewrite Hfile.
  rewrite (scan_all_labeled df _ Hstart Hall).
  by rewrite bool_decide_eq_true_2.
Qed.

Lemma apl_all_labeled_run steps w df :
  Apl.csv_file w = Some df →
  Apl.session_run w (Some (len df)) steps = (Some df, Some (len df)).
Proof.
  revert w. induction steps as [|[ui writable] steps IH]; intros w Hfile.
  - simpl. by rewrite Hfile.
  - cbn [Apl.session_run]. rewrite Hfile.
    rewrite (apl_all_labeled (Apl.after w writable (Some df)) (Some (len df)) ui df).
    + cbn [Apl.disk Apl.current_index]. by apply IH.
    + done.
    + done.
    + intros j r Hj Hr. apply lookup_lt_Some in Hr. simpl in Hj. unfold len in Hj. lia.
Qed.

(** X13.  Once every row from the stored index on is labeled, variant A is
    at its end for good: whatever is pressed in whatever order, every
    execution stops at the completion message, the index is the table
    length and the file is never written. *)
Theorem all_labeled_is_final (w : Apl.world) (st : option nat) (df : DataFrame)
    (step : Apl.widgets * bool) (steps : list (Apl.widgets * bool)) :
  Apl.csv_file w = Some df →
  default 0 st ≤ len df →
  (∀ j r, default 0 st ≤ j → rows df !! j = Some r → labeled_A r) →
  Apl.session_run w st (step :: steps) = (Some df, Some (len df)) ∧
  Apl.notices (Apl.script w st step.1) = [AllLabeled].
Proof.
  intros Hfile Hstart Hall. destruct step as [ui writable].
  split.
  - cbn [Apl.session_run]. rewrite Hfile.
    rewrite (apl_all_labeled (Apl.after w writable (Some df)) st ui df) by done.
    cbn [Apl.disk Apl.current_index]. by apply apl_all_labeled_run.
  - cbn [fst]. by rewrite (apl_all_labeled w st ui df).
Qed.

Lemma all_labeled_is_final_witness :
  Apl.session_run (Apl.mkWorld (Some finished) every_image true) None
    [(save_press_A, true); (previous_press_A, true); (drop_press_A, true)]
  = (Some finished, Some (len finished)) ∧
  Apl.notices (Apl.script (Apl.mkWorld (Some finished) every_image true) None
                 (save_press_A, true).1) = [AllLabeled].
Proof.
  apply (all_labeled_is_final (Apl.mkWorld (Some finished) every_image true) None
           finished (save_press_A, true)
           [(previous_press_A, true); (drop_press_A, true)]).
  - reflexivity.
  - simpl. lia.
  - intros j r _ Hr. exists (VNum 1).
    destruct j as [|[|j]]; simpl in Hr; [| |done]; injection Hr as <-; by split.
Defined.

Lemma apl_missing_image w st ui df i (r : Row) name :
  Apl.csv_file w = Some df →
  Apl.scan df (default 0 st) = inl i →
  rows df !! i = Some r →
  r !! "Image_Name" = Some (VStr name) →
  Apl.image_exists w (path_join Apl.images_folder name) = false →
  Apl.script w st ui
  = Apl.mkOutcome (Some i) (Some df) (Some df) [ImageNotFound] Stopped.
Proof.
  intros Hfile Hscan Hr Hname Himage. unfold Apl.script, iloc.
  rewrite Hfile, Hscan, Hr, Hname, Himage.
  rewrite bool_decide_eq_false_2; [done|].
  apply lookup_lt_Some in Hr. unfold len. lia.
Qed.

(** X14.  In variant A a row whose image file is missing holds the cursor:
    the script stops before the handlers and before the navigation buttons,
    so whatever is pressed in whatever order, the index stays on that row
    and the file is never written. *)
Theorem missing_image_holds_the_cursor (steps : list (Apl.widgets * bool))
    (step : Apl.widgets * bool) (w : Apl.world) (st : option nat)
    (df : DataFrame) (i : nat) (r : Row) (name : string) :
  Apl.csv_file w = Some df →
  Apl.scan df (default 0 st) = inl i →
  rows df !! i = Some r →
  r !! "Image_Name" = Some (VStr name) →
  Apl.image_exists w (path_join Apl.images_folder name) = false →
  Apl.session_run w st (step :: steps) = (Some df, Some i).
Proof.
  revert step w st.
  induction steps as [|next_step steps IH]; intros [ui writable] w st
    Hfile Hscan Hr Hname Himage.
  - cbn [Apl.session_run]. rewrite Hfile.
    by rewrite (apl_missing_image (Apl.after w writable (Some df)) st ui df i r name)
      by done.
  - cbn [Apl.session_run] in *. rewrite Hfile.
    rewrite (apl_missing_image (Apl.after w writable (Some df)) st ui df i r name)
      by done.
    cbn [Apl.disk Apl.current_index].
    specialize (IH next_step (Apl.after w writable (Some df)) (Some i)).
    destruct next_step as [ui' writable']. cbn [Apl.session_run] in IH.
    apply IH; try done. simpl. by eapply scan_fixed_inl.
Qed.

Lemma missing_image_holds_the_cursor_witness :
  Apl.session_run (Apl.mkWorld (Some sample) no_image true) (Some 0)
    [(next_press_A, true); (save_press_A, true); (previous_press_A, true)]
  = (Some sample, Some 1).
Proof.
  eapply (missing_image_holds_the_cursor
            [(save_press_A, true); (previous_press_A, true)] (next_press_A, true)
            (Apl.mkWorld (Some sample) no_image true) (Some 0) sample 1);
    reflexivity.
Defined.
